(** * Content creation task manager: shallow embedding and properties

    The development embeds [content_creators/task_manager.py]
    ([ContentTaskManager]), [content_creators/image_generator.py]
    ([Imagedata], [generate_image]) and [content_creators/agent.py]
    ([ContentCreator.invoke]).

    Python objects that the manager mutates (the task dictionary, the
    per-task message lists, the subscriber queues) live in an explicit
    [State]; a coroutine of the manager is a function from [State] to a
    new [State] and either a value or a raised exception.  A raise keeps
    the mutations made before it, as in Python. *)

From Stdlib Require Import String ZArith List Permutation Lia DecimalString.
From stdpp Require Import base option list gmap strings.
Import ListNotations.
Local Open Scope string_scope.
Local Open Scope list_scope.
Local Set Warnings "-register-all".

(** ** Python exceptions and results *)

(** An exception instance: its class name and [str(e)]. *)
Inductive exn : Type :=
| PyExn (cls : string) (msg : string).

Definition exn_str (e : exn) : string :=
  match e with PyExn _ msg => msg end.

Definition ValueError (msg : string) : exn := PyExn "ValueError" msg.
Definition IndexError (msg : string) : exn := PyExn "IndexError" msg.
Definition AttributeError (msg : string) : exn := PyExn "AttributeError" msg.
Definition TypeError (msg : string) : exn := PyExn "TypeError" msg.
Definition ValidationError (msg : string) : exn := PyExn "ValidationError" msg.

Inductive result (A : Type) : Type :=
| Ok (a : A)
| Raise (e : exn).
Arguments Ok {A} a.
Arguments Raise {A} e.

Definition is_ok {A : Type} (r : result A) : bool :=
  match r with Ok _ => true | Raise _ => false end.

Definition result_bind {A B : Type} (r : result A) (k : A -> result B) : result B :=
  match r with
  | Ok a => k a
  | Raise e => Raise e
  end.

(** ** JSON values, as [json.loads] produces them *)

Inductive json : Type :=
| JNull
| JBool (b : bool)
| JNum (n : Z)
| JStr (s : string)
| JList (l : list json)
| JDict (d : list (string * json)).

Definition py_type_name (v : json) : string :=
  match v with
  | JNull => "NoneType"
  | JBool _ => "bool"
  | JNum _ => "int"
  | JStr _ => "str"
  | JList _ => "list"
  | JDict _ => "dict"
  end.

Fixpoint assoc (key : string) (d : list (string * json)) : option json :=
  match d with
  | [] => None
  | (k, v) :: d' => if String.eqb key k then Some v else assoc key d'
  end.

(** [v.get(key, default)]: defined on dictionaries only. *)
Definition py_get (v : json) (key : string) (default : json) : result json :=
  match v with
  | JDict d => Ok (match assoc key d with Some x => x | None => default end)
  | _ => Raise (AttributeError
                  ("'" ++ py_type_name v ++ "' object has no attribute 'get'"))
  end.

(** Python truthiness, [bool(v)]. *)
Definition py_truthy (v : json) : bool :=
  match v with
  | JNull => false
  | JBool b => b
  | JNum n => negb (Z.eqb n 0)
  | JStr s => negb (String.eqb s "")
  | JList l => match l with [] => false | _ => true end
  | JDict d => match d with [] => false | _ => true end
  end.

Definition py_hashable (v : json) : bool :=
  match v with
  | JList _ | JDict _ => false
  | _ => true
  end.

(** [==] between hashable values ([True == 1], [False == 0]). *)
Definition py_eqb (a b : json) : bool :=
  match a, b with
  | JNull, JNull => true
  | JBool x, JBool y => Bool.eqb x y
  | JBool x, JNum n | JNum n, JBool x => Z.eqb n (if x then 1 else 0)
  | JNum n, JNum m => Z.eqb n m
  | JStr s, JStr t => String.eqb s t
  | _, _ => false
  end.

(** The elements a [set] keeps when built from a list: the first of each
    class of equal elements. *)
Fixpoint py_dedup (seen l : list json) : list json :=
  match l with
  | [] => []
  | v :: l' =>
      if existsb (py_eqb v) seen then py_dedup seen l'
      else v :: py_dedup (v :: seen) l'
  end.

(** [set(l)]: fails on the first unhashable element. *)
Definition py_set (l : list json) : result (list json) :=
  match List.find (fun v => negb (py_hashable v)) l with
  | Some v => Raise (TypeError ("unhashable type: '" ++ py_type_name v ++ "'"))
  | None => Ok (py_dedup [] l)
  end.

Definition nat_to_string (n : nat) : string :=
  NilEmpty.string_of_uint (Nat.to_uint n).

(** [', '.join(l)]: every item must be a [str]. *)
Fixpoint py_join_from (i : nat) (l : list json) : result (list string) :=
  match l with
  | [] => Ok []
  | JStr s :: l' => result_bind (py_join_from (S i) l') (fun r => Ok (s :: r))
  | v :: _ =>
      Raise (TypeError ("sequence item " ++ nat_to_string i
                        ++ ": expected str instance, " ++ py_type_name v ++ " found"))
  end.

Definition py_join (sep : string) (l : list json) : result string :=
  result_bind (py_join_from 0 l) (fun ss => Ok (String.concat sep ss)).

(** ** Protocol data ([common.types]) *)

(** Modelled from the spec: the task states of the data model (the
    declaration of [TaskState] is in the [common] package). *)
Inductive TaskState : Type :=
| SUBMITTED | WORKING | COMPLETED | FAILED | ERROR.

Definition terminal (s : TaskState) : bool :=
  match s with
  | COMPLETED | FAILED | ERROR => true
  | SUBMITTED | WORKING => false
  end.

Record FileContent : Type := mkFileContent {
  file_bytes : string;
  file_mimeType : string;
  file_name : string }.

Inductive Part : Type :=
| TextPart (text : string)
| FilePart (file : FileContent).

Record Message : Type := mkMessage {
  role : string;
  parts : list Part }.

Record TaskStatus : Type := mkTaskStatus {
  state : TaskState;
  message : option Message }.

Record Artifact : Type := mkArtifact {
  artifact_parts : list Part;
  index : Z;
  title : string }.

Record Task : Type := mkTask {
  tid : string;
  status : TaskStatus;
  artifacts : option (list Artifact);
  history : list Message }.

Record PushNotificationConfig : Type := mkPushNotificationConfig {
  url : string;
  token : option string }.

Inductive Event : Type :=
| TaskStatusUpdateEvent (id : string) (st : TaskStatus) (final : bool)
| TaskArtifactUpdateEvent (id : string) (artifact : Artifact).

Definition event_final (e : Event) : bool :=
  match e with
  | TaskStatusUpdateEvent _ _ f => f
  | TaskArtifactUpdateEvent _ _ => false
  end.

Inductive JSONRPCError : Type :=
| InvalidParamsError (msg : string)
| InternalError (msg : string)
| ContentTypeNotSupportedError.

Record JSONRPCResponse : Type := mkResponse {
  response_id : string;
  response_result : option Task;
  response_error : option JSONRPCError }.

Record TaskSendParams : Type := mkTaskSendParams {
  params_id : string;
  params_message : Message;
  acceptedOutputModes : list string;
  historyLength : option nat;
  pushNotification : option PushNotificationConfig }.

Record SendTaskRequest : Type := mkRequest {
  request_id : string;
  params : TaskSendParams }.

(** What [on_send_task_subscribe] hands back: the event source over one
    subscriber queue, or an error response. *)
Inductive SubscribeResult : Type :=
| EventStream (request_id : string) (task_id : string) (queue : nat)
| ErrorResponse (r : JSONRPCResponse).

(** ** The image result ([image_generator.py]) *)

Record Imagedata : Type := mkImagedata {
  image_id : string;
  bytestring : list Byte.byte;
  mime_type : string;
  error : option string }.

(** [Imagedata(...)]: pydantic validation.  [id], [bytestring] and
    [mime_type] have no default, so a keyword that is missing (or [None])
    is rejected; [error] defaults to [None]. *)
Definition Imagedata_init (id : option string) (bytestring : option (list Byte.byte))
    (mime_type : option string) (error : option string) : result Imagedata :=
  match id, bytestring, mime_type with
  | Some i, Some b, Some m => Ok (mkImagedata i b m error)
  | _, _, _ => Raise (ValidationError "validation error for Imagedata")
  end.

(** A part of the model response: [part.inline_data], when the attribute
    exists and is not [None], with its [data] and [mime_type]. *)
Record ResponsePart : Type := mkResponsePart {
  inline_data : option (option (list Byte.byte) * option string) }.

(** What [generate_image] reads from outside: the environment variable,
    the model's answer (the parts of its first candidate, or the exception
    the client raised) and the fresh uuid. *)
Record ImageEnv : Type := mkImageEnv {
  GOOGLE_API_KEY : option string;
  generate_content : string -> result (list ResponsePart);
  uuid4_hex : string }.

(** The [for part in ...parts] loop: return at the first inline part. *)
Fixpoint first_inline_image (image_id : string) (ps : list ResponsePart)
  : option (result Imagedata) :=
  match ps with
  | [] => None
  | p :: ps' =>
      match inline_data p with
      | Some (data, mime) => Some (Imagedata_init (Some image_id) data mime None)
      | None => first_inline_image image_id ps'
      end
  end.

Definition generate_image_body (env : ImageEnv) (prompt : string) : result Imagedata :=
  match GOOGLE_API_KEY env with
  | None | Some "" =>
      Imagedata_init None None None
        (Some "Google API key not found. Please set the GOOGLE_API_KEY environment variable.")
  | Some _ =>
      result_bind (generate_content env prompt) (fun response_parts =>
        match first_inline_image (uuid4_hex env) response_parts with
        | Some r => r
        | None => Imagedata_init None None None (Some "No image was found in the response")
        end)
  end.

Definition generate_image (env : ImageEnv) (prompt : string) : result Imagedata :=
  if String.eqb prompt "" then
    Imagedata_init None None None (Some "Prompt cannot be empty")
  else
    match generate_image_body env prompt with
    | Ok img => Ok img
    | Raise e =>
        Imagedata_init None None None (Some ("Error generating image: " ++ exn_str e)%string)
    end.

(** ** The manager's collaborators and its mutable state *)

(** The push-notification sender ([PushNotificationSenderAuth], from the
    [common] package), taken as a parameter: the verdict of the URL
    challenge, and the outcome of a delivery, [None] for a normal return
    and [Some e] for a raised exception.  The delivery sees how many
    deliveries were attempted before it, so its behaviour may change from
    one call to the next. *)
Record PushNotificationSenderAuth : Type := mkSender {
  verify_push_notification_url : string -> bool;
  send_push_notification : nat -> string -> Task -> option exn }.

(** Everything the manager is constructed with or imports: the agent
    ([agent.invoke(query)] returns the content record and the image
    result, or raises), the optional sender, and the library functions
    [json.dumps(_, indent=2)], [base64.b64encode(_).decode('utf-8')] and
    the iteration order of a [set]. *)
Record Env : Type := mkEnv {
  agent_invoke : string -> result (json * option Imagedata);
  notification_sender_auth : option PushNotificationSenderAuth;
  json_dumps : json -> string;
  b64encode : list Byte.byte -> string;
  set_iter : list json -> list json }.

(** The iteration order of a set is some arrangement of its elements. *)
Definition set_iter_ok (env : Env) : Prop :=
  forall l, Permutation (set_iter env l) l.

(** The fields of the manager ([tasks], [task_messages],
    [push_notification_infos], [task_sse_subscribers]; a subscriber queue
    is the list of events put on it so far), the coroutines handed to
    [asyncio.create_task] and not yet run, and what has left the process:
    the deliveries attempted and the queries passed to the agent. *)
Record State : Type := mkState {
  tasks : gmap string Task;
  task_messages : gmap string (list Message);
  push_notification_infos : gmap string PushNotificationConfig;
  task_sse_subscribers : gmap string (list (list Event));
  scheduled : list SendTaskRequest;
  outbox : list (string * Task);
  agent_calls : list string }.

Definition set_tasks (f : gmap string Task -> gmap string Task) (s : State) : State :=
  mkState (f (tasks s)) (task_messages s) (push_notification_infos s)
          (task_sse_subscribers s) (scheduled s) (outbox s) (agent_calls s).

Definition set_task_messages
    (f : gmap string (list Message) -> gmap string (list Message)) (s : State) : State :=
  mkState (tasks s) (f (task_messages s)) (push_notification_infos s)
          (task_sse_subscribers s) (scheduled s) (outbox s) (agent_calls s).

Definition set_push_notification_infos
    (f : gmap string PushNotificationConfig -> gmap string PushNotificationConfig)
    (s : State) : State :=
  mkState (tasks s) (task_messages s) (f (push_notification_infos s))
          (task_sse_subscribers s) (scheduled s) (outbox s) (agent_calls s).

Definition set_task_sse_subscribers
    (f : gmap string (list (list Event)) -> gmap string (list (list Event)))
    (s : State) : State :=
  mkState (tasks s) (task_messages s) (push_notification_infos s)
          (f (task_sse_subscribers s)) (scheduled s) (outbox s) (agent_calls s).

Definition set_scheduled (f : list SendTaskRequest -> list SendTaskRequest)
    (s : State) : State :=
  mkState (tasks s) (task_messages s) (push_notification_infos s)
          (task_sse_subscribers s) (f (scheduled s)) (outbox s) (agent_calls s).

Definition set_outbox (f : list (string * Task) -> list (string * Task))
    (s : State) : State :=
  mkState (tasks s) (task_messages s) (push_notification_infos s)
          (task_sse_subscribers s) (scheduled s) (f (outbox s)) (agent_calls s).

Definition set_agent_calls (f : list string -> list string) (s : State) : State :=
  mkState (tasks s) (task_messages s) (push_notification_infos s)
          (task_sse_subscribers s) (scheduled s) (outbox s) (f (agent_calls s)).

Definition empty_state : State :=
  mkState ∅ ∅ ∅ ∅ [] [] [].

(** ** Coroutines: state passing with exceptions *)

Definition M (A : Type) : Type := State -> State * result A.

Definition ret {A : Type} (a : A) : M A := fun s => (s, Ok a).

Definition bind {A B : Type} (m : M A) (k : A -> M B) : M B :=
  fun s =>
    match m s with
    | (s', Ok a) => k a s'
    | (s', Raise e) => (s', Raise e)
    end.

(** [try: m  except Exception as e: h e]. *)
Definition try_except {A : Type} (m : M A) (h : exn -> M A) : M A :=
  fun s =>
    match m s with
    | (s', Ok a) => (s', Ok a)
    | (s', Raise e) => h e s'
    end.

Definition lift {A : Type} (r : result A) : M A := fun s => (s, r).

Definition modify (f : State -> State) : M unit := fun s => (f s, Ok tt).

Notation "'let*' x ':=' m 'in' k" := (bind m (fun x => k))
  (at level 10, x name, m at level 200, k at level 200).

(** The state a coroutine leaves and what it returned or raised. *)
Definition final_state {A : Type} (r : State * result A) : State := fst r.
Definition outcome {A : Type} (r : State * result A) : result A := snd r.

(** ** Request validation *)

Definition SUPPORTED_CONTENT_TYPES : list string :=
  ["text"; "text/plain"; "image/png"; "application/json"].

(** Modelled from the spec: [utils.are_modalities_compatible] of the
    [common] package; the accepted output modes and the supported set
    have a non-empty intersection. *)
Definition are_modalities_compatible (accepted supported : list string) : bool :=
  existsb (fun m => existsb (String.eqb m) supported) accepted.

(** Modelled from the spec: [utils.new_incompatible_types_error] of the
    [common] package; the [IncompatibleTypes] error response. *)
Definition new_incompatible_types_error (request_id : string) : JSONRPCResponse :=
  mkResponse request_id None (Some ContentTypeNotSupportedError).

Definition _validate_request (request : SendTaskRequest) : option JSONRPCResponse :=
  let task_send_params := params request in
  if negb (are_modalities_compatible (acceptedOutputModes task_send_params)
                                     SUPPORTED_CONTENT_TYPES)
  then Some (new_incompatible_types_error (request_id request))
  else
    match pushNotification task_send_params with
    | Some cfg =>
        if String.eqb (url cfg) "" then
          Some (mkResponse (request_id request) None
                  (Some (InvalidParamsError "Push notification URL is missing")))
        else None
    | None => None
    end.

(** ** The inherited store and broker ([InMemoryTaskManager]) *)

(** Modelled from the spec: [upsert_task] of the [common] package; creates
    the task if the id is absent (state SUBMITTED, no artifacts), otherwise
    returns the existing record unchanged. *)
Definition upsert_task (p : TaskSendParams) : M Task :=
  fun s =>
    match tasks s !! params_id p with
    | Some task => (s, Ok task)
    | None =>
        let task := mkTask (params_id p) (mkTaskStatus SUBMITTED None) None [] in
        (set_tasks (insert (params_id p) task) s, Ok task)
    end.

(** Modelled from the spec: the inherited [set_push_notification_info] of
    the [common] package; stores the configuration for the task id. *)
Definition super_set_push_notification_info (task_id : string)
    (cfg : PushNotificationConfig) : M unit :=
  modify (set_push_notification_infos (insert task_id cfg)).

(** Modelled from the spec: [has_push_notification_info] of the [common]
    package; whether a configuration is registered for the task id. *)
Definition has_push_notification_info (task_id : string) : M bool :=
  fun s => (s, Ok (match push_notification_infos s !! task_id with
                   | Some _ => true
                   | None => false
                   end)).

(** Modelled from the spec: [get_push_notification_info] of the [common]
    package; the configuration registered for the task id. *)
Definition get_push_notification_info (task_id : string) : M PushNotificationConfig :=
  fun s =>
    match push_notification_infos s !! task_id with
    | Some cfg => (s, Ok cfg)
    | None => (s, Raise (ValueError ("Task not found for " ++ task_id)))
    end.

(** Modelled from the spec: [setup_sse_consumer] of the [common] package;
    attaches a new, empty subscriber queue to the task's event stream and
    returns its handle, also on resubscription. *)
Definition setup_sse_consumer (task_id : string) (is_resubscribe : bool) : M nat :=
  fun s =>
    let queues :=
      match task_sse_subscribers s !! task_id with
      | Some qs => qs
      | None => []
      end in
    (set_task_sse_subscribers (insert task_id (queues ++ [[]])) s,
     Ok (length queues)).

(** Modelled from the spec: [enqueue_events_for_sse] of the [common]
    package; appends the event to every subscriber queue open for the id. *)
Definition enqueue_events_for_sse (task_id : string) (ev : Event) : M unit :=
  modify (set_task_sse_subscribers
            (alter (List.map (fun q => q ++ [ev])) task_id)).

(** Modelled from the spec: [dequeue_events_for_sse] of the [common]
    package; the event source that consumes one subscriber queue. *)
Definition dequeue_events_for_sse (request_id task_id : string) (queue : nat)
  : SubscribeResult :=
  EventStream request_id task_id queue.

(** Modelled from the spec: [append_task_history] of the [common] package;
    a copy of the task carrying the most recent [historyLength] messages of
    its history (all of them when no length is requested). *)
Definition append_task_history (task : Task) (historyLength : option nat) : M Task :=
  fun s =>
    let msgs :=
      match task_messages s !! tid task with
      | Some l => l
      | None => []
      end in
    let trimmed :=
      match historyLength with
      | Some n => drop (length msgs - n) msgs
      | None => msgs
      end in
    (s, Ok (mkTask (tid task) (status task) (artifacts task) trimmed)).

(** ** [ContentTaskManager] *)

Definition _get_user_query (task_send_params : TaskSendParams) : result string :=
  match parts (params_message task_send_params) with
  | [] => Raise (IndexError "list index out of range")
  | TextPart text :: _ => Ok text
  | FilePart _ :: _ => Raise (ValueError "Only text parts are supported")
  end.

(** [push_info.url] and the dumped task go to the sender; a raise of the
    sender is not caught here. *)
Definition deliver (sender : PushNotificationSenderAuth) (url : string) (task : Task)
  : M unit :=
  fun s =>
    let s' := set_outbox (fun o => o ++ [(url, task)]) s in
    match send_push_notification sender (length (outbox s)) url task with
    | None => (s', Ok tt)
    | Some e => (s', Raise e)
    end.

Definition send_task_notification (env : Env) (task : Task) : M unit :=
  match notification_sender_auth env with
  | None => ret tt
  | Some sender =>
      let* has_info := has_push_notification_info (tid task) in
      if negb has_info then ret tt
      else
        let* push_info := get_push_notification_info (tid task) in
        deliver sender (url push_info) task
  end.

(** The recurring
    [if self.notification_sender_auth: await self.send_task_notification(task)]. *)
Definition notify (env : Env) (task : Task) : M unit :=
  match notification_sender_auth env with
  | Some _ => send_task_notification env task
  | None => ret tt
  end.

Definition set_push_notification_info (env : Env) (task_id : string)
    (push_notification_config : PushNotificationConfig) : M bool :=
  match notification_sender_auth env with
  | None => ret false
  | Some sender =>
      let is_verified :=
        verify_push_notification_url sender (url push_notification_config) in
      if negb is_verified then ret false
      else
        let* _ := super_set_push_notification_info task_id push_notification_config in
        ret true
  end.

Definition append_message (task_id : string) (m : Message)
    (log : gmap string (list Message)) : gmap string (list Message) :=
  insert task_id (match log !! task_id with
                  | Some l => l ++ [m]
                  | None => [m]
                  end) log.

Definition update_store (task_id : string) (new_status : option TaskStatus)
    (new_artifacts : option (list Artifact)) : M Task :=
  fun s =>
    match tasks s !! task_id with
    | None => (s, Raise (ValueError ("Task " ++ task_id ++ " not found")))
    | Some task =>
        let task1 :=
          match new_status with
          | Some st => mkTask (tid task) st (artifacts task) (history task)
          | None => task
          end in
        let log :=
          match new_status with
          | Some st =>
              match message st with
              | Some m => append_message task_id m
              | None => fun l => l
              end
          | None => fun l => l
          end in
        let task2 :=
          match new_artifacts with
          | Some (a :: l) =>
              mkTask (tid task1) (status task1)
                (Some (match artifacts task1 with
                       | Some old => old ++ a :: l
                       | None => a :: l
                       end))
                (history task1)
          | Some [] | None => task1
          end in
        (set_task_messages log (set_tasks (insert task_id task2) s), Ok task2)
    end.

(** *** Artifacts and summary *)

(** [image_data.error] as a condition: set and not the empty string. *)
Definition has_error (image : Imagedata) : bool :=
  match error image with
  | Some e => negb (String.eqb e "")
  | None => false
  end.

(** [image_data and not image_data.error]. *)
Definition image_available (image_data : option Imagedata) : bool :=
  match image_data with
  | Some image => negb (has_error image)
  | None => false
  end.

Definition text_artifact (env : Env) (content_data : json) : Artifact :=
  mkArtifact [TextPart (json_dumps env content_data)] 0 "Content Package".

Definition image_artifact (env : Env) (image : Imagedata) : Artifact :=
  mkArtifact
    [FilePart (mkFileContent (b64encode env (bytestring image)) (mime_type image)
                             "generated_image.png")]
    1 "Generated Image".

(** The list [artifacts] both paths build. *)
Definition make_artifacts (env : Env) (content_data : json)
    (image_data : option Imagedata) : list Artifact :=
  text_artifact env content_data ::
  match image_data with
  | Some image => if has_error image then [] else [image_artifact env image]
  | None => []
  end.

(** [content_data.get(key, {}).get('platform', '')]. *)
Definition platform_of (content_data : json) (key : string) : result json :=
  result_bind (py_get content_data key (JDict []))
              (fun c => py_get c "platform" (JStr "")).

(** [platforms], after [platforms = [p for p in platforms if p]]. *)
Definition platforms (env : Env) (content_data : json) : result (list json) :=
  result_bind (platform_of content_data "x_content") (fun x =>
  result_bind (platform_of content_data "facebook_content") (fun f =>
  result_bind (platform_of content_data "instagram_content") (fun i =>
  result_bind (platform_of content_data "linkedin_content") (fun l =>
  result_bind (py_set [x; f; i; l]) (fun s =>
  Ok (List.filter py_truthy (set_iter env s))))))).

Definition image_clause (image_data : option Imagedata) : string :=
  match image_data with
  | Some image =>
      if negb (has_error image)
      then " Generated matching image based on content theme."
      else (" Image generation failed: "
            ++ match error image with Some e => e | None => "" end)%string
  | None => ""
  end.

(** [summary], the same expression on both paths. *)
Definition make_summary (env : Env) (content_data : json)
    (image_data : option Imagedata) : result string :=
  result_bind (platforms env content_data) (fun ps =>
  result_bind (py_join ", " ps) (fun joined =>
  Ok ("Created content package with posts for " ++ joined ++ "."
      ++ image_clause image_data)%string)).

Definition agent_message (text : string) : Message :=
  mkMessage "agent" [TextPart text].

(** [await self.agent.invoke(query)], recording the call. *)
Definition invoke (env : Env) (query : string) : M (json * option Imagedata) :=
  fun s => (set_agent_calls (fun c => c ++ [query]) s, agent_invoke env query).

(** *** The non-streaming path *)

Definition _process_agent_response (env : Env) (request : SendTaskRequest)
    (content_data : json) (image_data : option Imagedata) : M JSONRPCResponse :=
  let task_send_params := params request in
  let task_id := params_id task_send_params in
  let history_length := historyLength task_send_params in
  let artifacts := make_artifacts env content_data image_data in
  let* summary := lift (make_summary env content_data image_data) in
  let task_status := mkTaskStatus COMPLETED (Some (agent_message summary)) in
  let* task := update_store task_id (Some task_status) (Some artifacts) in
  let* task_result := append_task_history task history_length in
  let* _ := notify env task in
  ret (mkResponse (request_id request) (Some task_result) None).

(** The guard
    [if request.params.pushNotification and self.notification_sender_auth:]
    and the registration under it; [true] when the request may go on. *)
Definition register_push_notification (env : Env) (request : SendTaskRequest) : M bool :=
  match pushNotification (params request), notification_sender_auth env with
  | Some cfg, Some _ => set_push_notification_info env (params_id (params request)) cfg
  | _, _ => ret true
  end.

(** The [try] block of [on_send_task] and its [except Exception as e]. *)
Definition on_send_task_try (env : Env) (request : SendTaskRequest) (query : string)
  : M JSONRPCResponse :=
  let* r := invoke env query in
  let content_data := fst r in
  let image_data := snd r in
  _process_agent_response env request content_data image_data.

Definition on_send_task_except (env : Env) (request : SendTaskRequest) (e : exn)
  : M JSONRPCResponse :=
  let* task := update_store (params_id (params request))
      (Some (mkTaskStatus FAILED
               (Some (agent_message ("Error creating content: " ++ exn_str e)%string))))
      None in
  let* _ := notify env task in
  ret (mkResponse (request_id request) None
         (Some (InternalError ("Error invoking agent: " ++ exn_str e)%string))).

Definition on_send_task (env : Env) (request : SendTaskRequest) : M JSONRPCResponse :=
  match _validate_request request with
  | Some validation_error =>
      ret (mkResponse (request_id request) None (response_error validation_error))
  | None =>
      let* registered := register_push_notification env request in
      if negb registered then
        ret (mkResponse (request_id request) None
               (Some (InvalidParamsError "Push notification URL is invalid")))
      else
        let* _ := upsert_task (params request) in
        let* task := update_store (params_id (params request))
                       (Some (mkTaskStatus WORKING None)) None in
        let* _ := notify env task in
        let task_send_params := params request in
        let* query := lift (_get_user_query task_send_params) in
        try_except (on_send_task_try env request query)
                   (on_send_task_except env request)
  end.

(** *** The streaming path *)

(** The [try] block of [_run_streaming_content_creation] and its
    [except Exception as e]. *)
Definition _run_streaming_try (env : Env) (request : SendTaskRequest) (query : string)
  : M unit :=
  let task_send_params := params request in
  let task_id := params_id task_send_params in
  let initial_message := agent_message "Starting content creation process..." in
  let task_status := mkTaskStatus WORKING (Some initial_message) in
  let* task := update_store task_id (Some task_status) None in
  let* _ := notify env task in
  let* _ := enqueue_events_for_sse task_id
              (TaskStatusUpdateEvent task_id task_status false) in
  let progress_message :=
    agent_message "Creating content package and generating image..." in
  let task_status := mkTaskStatus WORKING (Some progress_message) in
  let* task := update_store task_id (Some task_status) None in
  let* _ := notify env task in
  let* _ := enqueue_events_for_sse task_id
              (TaskStatusUpdateEvent task_id task_status false) in
  let* r := invoke env query in
  let content_data := fst r in
  let image_data := snd r in
  let text_artifact := text_artifact env content_data in
  let* _ := update_store task_id None (Some [text_artifact]) in
  let* _ := enqueue_events_for_sse task_id
              (TaskArtifactUpdateEvent task_id text_artifact) in
  let* _ :=
    match image_data with
    | Some image =>
        if negb (has_error image) then
          let image_artifact := image_artifact env image in
          let* _ := update_store task_id None (Some [image_artifact]) in
          enqueue_events_for_sse task_id
            (TaskArtifactUpdateEvent task_id image_artifact)
        else ret tt
    | None => ret tt
    end in
  let* summary := lift (make_summary env content_data image_data) in
  let final_message := agent_message summary in
  let task_status := mkTaskStatus COMPLETED (Some final_message) in
  let* task := update_store task_id (Some task_status) None in
  let* _ := notify env task in
  enqueue_events_for_sse task_id (TaskStatusUpdateEvent task_id task_status true).

Definition _run_streaming_except (env : Env) (request : SendTaskRequest) (e : exn)
  : M unit :=
  let task_send_params := params request in
  let task_id := params_id task_send_params in
  let error_message :=
    agent_message ("Error creating content: " ++ exn_str e)%string in
  let task_status := mkTaskStatus ERROR (Some error_message) in
  let* task := update_store task_id (Some task_status) None in
  let* _ := notify env task in
  enqueue_events_for_sse task_id (TaskStatusUpdateEvent task_id task_status true).

Definition _run_streaming_content_creation (env : Env) (request : SendTaskRequest)
  : M unit :=
  let task_send_params := params request in
  let* query := lift (_get_user_query task_send_params) in
  try_except (_run_streaming_try env request query)
             (_run_streaming_except env request).

(** [asyncio.create_task(...)]: the coroutine is queued, not run. *)
Definition create_task (request : SendTaskRequest) : M unit :=
  modify (set_scheduled (fun q => q ++ [request])).

Definition on_send_task_subscribe (env : Env) (request : SendTaskRequest)
  : M SubscribeResult :=
  try_except
    (match _validate_request request with
     | Some error => ret (ErrorResponse error)
     | None =>
         let* _ := upsert_task (params request) in
         let* registered := register_push_notification env request in
         if negb registered then
           ret (ErrorResponse
                  (mkResponse (request_id request) None
                     (Some (InvalidParamsError "Push notification URL is invalid"))))
         else
           let task_send_params := params request in
           let* sse_event_queue :=
             setup_sse_consumer (params_id task_send_params) false in
           let* _ := create_task request in
           ret (dequeue_events_for_sse (request_id request)
                  (params_id task_send_params) sse_event_queue)
     end)
    (fun e =>
       ret (ErrorResponse
              (mkResponse (request_id request) None
                 (Some (InternalError
                          "An error occurred while streaming the response"))))).

(** The event loop runs the oldest queued coroutine to its end; an
    exception that escapes it is dropped with the coroutine. *)
Definition run_scheduled (env : Env) (s : State) : State :=
  match scheduled s with
  | [] => s
  | request :: rest =>
      final_state (_run_streaming_content_creation env request
                     (set_scheduled (fun _ => rest) s))
  end.

(** The events on the subscriber queues of a task. *)
Definition queues_of (s : State) (task_id : string) : list (list Event) :=
  match task_sse_subscribers s !! task_id with
  | Some qs => qs
  | None => []
  end.

Definition task_state (s : State) (task_id : string) : option TaskState :=
  match tasks s !! task_id with
  | Some task => Some (state (status task))
  | None => None
  end.

Definition task_artifacts (s : State) (task_id : string) : list Artifact :=
  match tasks s !! task_id with
  | Some task => match artifacts task with Some l => l | None => [] end
  | None => []
  end.

(** *** Resubscription *)

(** The request of [on_resubscribe_to_task]: its id and [params.id]. *)
Record TaskIdRequest : Type := mkTaskIdRequest {
  resubscribe_request_id : string;
  resubscribe_task_id : string }.

Definition on_resubscribe_to_task (request : TaskIdRequest) : M SubscribeResult :=
  let task_id := resubscribe_task_id request in
  try_except
    (let* sse_event_queue := setup_sse_consumer task_id true in
     ret (dequeue_events_for_sse (resubscribe_request_id request) task_id
            sse_event_queue))
    (fun e =>
       ret (ErrorResponse
              (mkResponse (resubscribe_request_id request) None
                 (Some (InternalError
                          ("An error occurred while reconnecting to stream: "
                           ++ exn_str e)%string))))).

(** ** The agent ([agent.py]) *)

Definition KeyError (msg : string) : exn := PyExn "KeyError" msg.

(** [v[key]] with a string key. *)
Definition py_getitem (v : json) (key : string) : result json :=
  match v with
  | JDict d =>
      match assoc key d with
      | Some x => Ok x
      | None => Raise (KeyError ("'" ++ key ++ "'"))
      end
  | JList _ => Raise (TypeError "list indices must be integers or slices, not str")
  | JStr _ => Raise (TypeError "string indices must be integers, not 'str'")
  | _ => Raise (TypeError ("'" ++ py_type_name v ++ "' object is not subscriptable"))
  end.

(** [v[:50]], as far as [invoke] uses it: the slice is only printed, so
    what matters is whether taking it raises.  Strings and lists can be
    sliced; a dictionary takes the slice for a key and raises (a
    [TypeError] up to Python 3.11, a [KeyError] from 3.12 on). *)
Definition py_slice (v : json) : result unit :=
  match v with
  | JStr _ | JList _ => Ok tt
  | JDict _ => Raise (TypeError "unhashable type: 'slice'")
  | _ => Raise (TypeError ("'" ++ py_type_name v ++ "' object is not subscriptable"))
  end.

(** What [ContentCreator.invoke] reads from outside: the content of the
    first choice of the chat completion ([None] is possible) or the
    exception of the client, [json.loads], the [raw] output of the crew
    for the inputs, and what [generate_image] reads; the image client is
    given the prompt as it is, whatever its type. *)
Record AgentEnv : Type := mkAgentEnv {
  chat_completion : string -> result (option string);
  json_loads : string -> result json;
  crew_kickoff : json -> result string;
  api_key : option string;
  generate_content_of : json -> result (list ResponsePart);
  fresh_uuid : string }.

(** The environment of [generate_image] for string prompts. *)
Definition image_env (aenv : AgentEnv) : ImageEnv :=
  mkImageEnv (api_key aenv) (fun prompt => generate_content_of aenv (JStr prompt))
             (fresh_uuid aenv).

(** [generate_image(prompt)] on the value [invoke] passes, which is
    whatever the crew put under ["image_prompt"]: the same function body,
    with [not prompt] read as Python truthiness. *)
Definition generate_image_of (aenv : AgentEnv) (prompt : json) : result Imagedata :=
  if negb (py_truthy prompt) then
    Imagedata_init None None None (Some "Prompt cannot be empty")
  else
    match
      match api_key aenv with
      | None | Some "" =>
          Imagedata_init None None None
            (Some "Google API key not found. Please set the GOOGLE_API_KEY environment variable.")
      | Some _ =>
          result_bind (generate_content_of aenv prompt) (fun response_parts =>
            match first_inline_image (fresh_uuid aenv) response_parts with
            | Some r => r
            | None =>
                Imagedata_init None None None (Some "No image was found in the response")
            end)
      end
    with
    | Ok img => Ok img
    | Raise e =>
        Imagedata_init None None None
          (Some ("Error generating image: " ++ exn_str e)%string)
    end.

Definition query2inputs (aenv : AgentEnv) (query : string) : result json :=
  result_bind (chat_completion aenv query) (fun content =>
    match content with
    | Some text => json_loads aenv text
    | None =>
        Raise (TypeError
                 "the JSON object must be str, bytes or bytearray, not NoneType")
    end).

Definition ContentCreator_invoke (aenv : AgentEnv) (query : string)
  : result (json * Imagedata) :=
  result_bind (query2inputs aenv query) (fun inputs =>
  result_bind (crew_kickoff aenv inputs) (fun raw =>
  result_bind (json_loads aenv raw) (fun content_data =>
  result_bind (py_getitem content_data "image_prompt") (fun image_prompt =>
  result_bind (py_slice image_prompt) (fun _ =>
  result_bind (generate_image_of aenv image_prompt) (fun image_data =>
  Ok (content_data, image_data))))))).

(** The manager constructed with this agent. *)
Definition agent_of (aenv : AgentEnv) (query : string)
  : result (json * option Imagedata) :=
  result_bind (ContentCreator_invoke aenv query) (fun r => Ok (fst r, Some (snd r))).

(** ** Vocabulary of the statements *)

(** No delivery of the configured sender raises (vacuous without sender). *)
Definition quiet (env : Env) : Prop :=
  forall sender, notification_sender_auth env = Some sender ->
  forall n url task, send_push_notification sender n url task = None.

(** The verdict of [register_push_notification], which does not depend on
    the state: the request carries no configuration, or no sender is
    configured, or the URL passed the challenge. *)
Definition registration_passes (env : Env) (request : SendTaskRequest) : bool :=
  match pushNotification (params request), notification_sender_auth env with
  | Some cfg, Some sender => verify_push_notification_url sender (url cfg)
  | _, _ => true
  end.

(** The request gets past validation and registration. *)
Definition accepted (env : Env) (request : SendTaskRequest) : bool :=
  match _validate_request request with
  | Some _ => false
  | None => registration_passes env request
  end.

Definition task_status (s : State) (task_id : string) : option TaskStatus :=
  match tasks s !! task_id with
  | Some task => Some (status task)
  | None => None
  end.

(** Two states that differ at most in the deliveries attempted. *)
Definition same_store (s s' : State) : Prop :=
  tasks s' = tasks s /\
  task_messages s' = task_messages s /\
  push_notification_infos s' = push_notification_infos s /\
  task_sse_subscribers s' = task_sse_subscribers s /\
  scheduled s' = scheduled s /\
  agent_calls s' = agent_calls s.

(** The state after the registration step and after a notification. *)
Definition registered (env : Env) (request : SendTaskRequest) (s : State) : State :=
  final_state (register_push_notification env request s).

Definition notified (env : Env) (task : Task) (s : State) : State :=
  final_state (notify env task s).

(** What [update_store] makes of a task it found. *)
Definition updated (task : Task) (new_status : option TaskStatus)
    (new_artifacts : option (list Artifact)) : Task :=
  mkTask (tid task)
    (match new_status with Some st => st | None => status task end)
    (match new_artifacts with
     | Some (a :: l) =>
         Some (match artifacts task with
               | Some old => old ++ a :: l
               | None => a :: l
               end)
     | Some [] | None => artifacts task
     end)
    (history task).

(** The task record [upsert_task] returns in a state. *)
Definition upserted (s : State) (task_id : string) : Task :=
  match tasks s !! task_id with
  | Some task => task
  | None => mkTask task_id (mkTaskStatus SUBMITTED None) None []
  end.

Definition artifacts_of (task : Task) : list Artifact :=
  match artifacts task with
  | Some l => l
  | None => []
  end.

(** Where [on_send_task] stands when it has set the task to WORKING: the
    task record and the state. *)
Definition working_task (env : Env) (request : SendTaskRequest) (s : State) : Task :=
  updated (upserted (registered env request s) (params_id (params request)))
          (Some (mkTaskStatus WORKING None)) None.

Definition working_state (env : Env) (request : SendTaskRequest) (s : State) : State :=
  set_tasks (insert (params_id (params request)) (working_task env request s))
    (set_tasks (insert (params_id (params request))
                  (upserted (registered env request s) (params_id (params request))))
       (registered env request s)).

(** One judgement for the runs of the lifecycle code on a task: started
    in a state where [task_id] maps to [task], the coroutine [m] ends with
    outcome [r], has made the record [task'], has appended [events] to
    every subscriber queue of the task, and has passed [calls] to the
    agent. *)
Definition exec {A : Type} (task_id : string) (task : Task) (m : M A) (s : State)
    (task' : Task) (events : list Event) (calls : list string) (r : result A) : Prop :=
  tasks s !! task_id = Some task ->
  outcome (m s) = r /\
  tasks (final_state (m s)) !! task_id = Some task' /\
  queues_of (final_state (m s)) task_id
  = List.map (fun q => q ++ events) (queues_of s task_id) /\
  agent_calls (final_state (m s)) = agent_calls s ++ calls.

(** The history [append_task_history] attaches in a state. *)
Definition trimmed_history (s : State) (task : Task) (history_length : option nat)
  : list Message :=
  match final_state (append_task_history task history_length s),
        outcome (append_task_history task history_length s) with
  | _, Ok copy => history copy
  | _, Raise _ => []
  end.

(** The statuses and the events of the two paths. *)
Definition failed_status (e : exn) : TaskStatus :=
  mkTaskStatus FAILED
    (Some (agent_message ("Error creating content: " ++ exn_str e)%string)).

Definition error_status (e : exn) : TaskStatus :=
  mkTaskStatus ERROR
    (Some (agent_message ("Error creating content: " ++ exn_str e)%string)).

Definition completed_status (summary : string) : TaskStatus :=
  mkTaskStatus COMPLETED (Some (agent_message summary)).

Definition working_status (text : string) : TaskStatus :=
  mkTaskStatus WORKING (Some (agent_message text)).

Definition progress_events (task_id : string) : list Event :=
  [TaskStatusUpdateEvent task_id
     (working_status "Starting content creation process...") false;
   TaskStatusUpdateEvent task_id
     (working_status "Creating content package and generating image...") false].

Definition artifact_events (env : Env) (task_id : string) (content_data : json)
    (image_data : option Imagedata) : list Event :=
  List.map (TaskArtifactUpdateEvent task_id)
           (make_artifacts env content_data image_data).

(** The task record of the streaming path once the artifacts are stored. *)
Definition streamed_task (env : Env) (task : Task) (content_data : json)
    (image_data : option Imagedata) : Task :=
  let working :=
    updated
      (updated task (Some (working_status "Starting content creation process...")) None)
      (Some (working_status "Creating content package and generating image..."))
      None in
  let with_text := updated working None (Some [text_artifact env content_data]) in
  match image_data with
  | Some image =>
      if has_error image then with_text
      else updated with_text None (Some [image_artifact env image])
  | None => with_text
  end.

(** A subscribe call followed by the run of the coroutine it scheduled. *)
Definition subscribe_and_run (env : Env) (request : SendTaskRequest) (s : State)
  : State :=
  run_scheduled env (final_state (on_send_task_subscribe env request s)).

(** A list of events that ends with its only final event. *)
Definition ends_with_final (events : list Event) : Prop :=
  exists init ev,
    events = init ++ [ev] /\ event_final ev = true /\
    Forall (fun e => event_final e = false) init.

(** A run of a coroutine relates the state before to the state after. *)
Definition steps {A : Type} (R : State -> State -> Prop) (m : M A) : Prop :=
  forall s, R s (final_state (m s)).

(** Every task but [task_id] is as before. *)
Definition frame (task_id : string) (s s' : State) : Prop :=
  forall other, other <> task_id -> tasks s' !! other = tasks s !! other.

(** Every task is stored under its own id. *)
Definition well_keyed (s : State) : Prop :=
  forall task_id task, tasks s !! task_id = Some task -> tid task = task_id.

(** A run that keeps the store well keyed. *)
Definition keeps_keys (s s' : State) : Prop :=
  well_keyed s -> well_keyed s'.

(** Every task of [s] is still stored in [s'], with the same id and with
    its artifacts as a prefix of the new ones. *)
Definition grows (s s' : State) : Prop :=
  forall task_id task,
    tasks s !! task_id = Some task ->
    exists task' added,
      tasks s' !! task_id = Some task' /\
      tid task' = tid task /\
      artifacts_of task' = artifacts_of task ++ added.

(** The message history of a task ([task_messages] is a
    [defaultdict(list)]). *)
Definition messages_of (s : State) (task_id : string) : list Message :=
  match task_messages s !! task_id with
  | Some l => l
  | None => []
  end.

(** Every history of [s] is a prefix of the history in [s']. *)
Definition log_grows (s s' : State) : Prop :=
  forall task_id,
    exists added, messages_of s' task_id = messages_of s task_id ++ added.

(** Nothing was enqueued, no queue attached and no coroutine scheduled. *)
Definition no_streaming (s s' : State) : Prop :=
  task_sse_subscribers s' = task_sse_subscribers s /\
  scheduled s' = scheduled s.

(** The subscriber queues of every other task are as before. *)
Definition other_queues (task_id : string) (s s' : State) : Prop :=
  forall other, other <> task_id ->
  task_sse_subscribers s' !! other = task_sse_subscribers s !! other.

(** No subscriber queue was removed. *)
Definition queues_kept (s s' : State) : Prop :=
  forall task_id, length (queues_of s task_id) <= length (queues_of s' task_id).

(** A platform value [make_summary] can use: it can go into a set, and
    when it is true, so that it is kept, it is a string. *)
Definition usable_platform (v : json) : Prop :=
  py_hashable v = true /\ (py_truthy v = true -> exists p, v = JStr p).

(** The run from [s] to [s'] has appended [events] to every subscriber
    queue of the task. *)
Definition appended (task_id : string) (events : list Event) (s s' : State) : Prop :=
  queues_of s' task_id = List.map (fun queue => queue ++ events) (queues_of s task_id).

Definition nonfinal (events : list Event) : Prop :=
  Forall (fun ev => event_final ev = false) events.

(** A list of events that ends with its only final event, a status event
    of the task in state COMPLETED or ERROR. *)
Definition ends_with_terminal_event (task_id : string) (events : list Event) : Prop :=
  exists init st,
    events = init ++ [TaskStatusUpdateEvent task_id st true] /\
    (state st = COMPLETED \/ state st = ERROR) /\
    nonfinal init.

(** Only events that are not final were appended. *)
Definition appends_nonfinal (task_id : string) (s s' : State) : Prop :=
  exists events, appended task_id events s s' /\ nonfinal events.

(** A coroutine that enqueues a final event only as the last thing it
    does: what it appends is not final when it raises, and is not final or
    ends with its only final event when it returns. *)
Definition closes {A : Type} (task_id : string) (m : M A) : Prop :=
  forall s,
    exists events,
      appended task_id events s (final_state (m s)) /\
      match outcome (m s) with
      | Ok _ => nonfinal events \/ ends_with_terminal_event task_id events
      | Raise _ => nonfinal events
      end.

(** The states the manager can be in: it starts empty, and each call of a
    handler and each run of a scheduled coroutine leads to the next one. *)
Inductive reachable (env : Env) : State -> Prop :=
| reachable_start : reachable env empty_state
| reachable_send (s : State) (request : SendTaskRequest) :
    reachable env s -> reachable env (final_state (on_send_task env request s))
| reachable_subscribe (s : State) (request : SendTaskRequest) :
    reachable env s ->
    reachable env (final_state (on_send_task_subscribe env request s))
| reachable_resubscribe (s : State) (request : TaskIdRequest) :
    reachable env s -> reachable env (final_state (on_resubscribe_to_task request s))
| reachable_run (s : State) :
    reachable env s -> reachable env (run_scheduled env s).

(** Every coroutine still to run has its task stored and a subscriber
    queue to write to. *)
Definition scheduled_ready (s : State) : Prop :=
  forall request,
    In request (scheduled s) ->
    (exists task, tasks s !! params_id (params request) = Some task) /\
    queues_of s (params_id (params request)) <> [].

(** The coroutines still to run are the same. *)
Definition same_schedule (s s' : State) : Prop :=
  scheduled s' = scheduled s.

(** ** Sample data *)

Definition content_sample : json :=
  JDict [("core_message", JStr "Automation for everyone");
         ("image_prompt", JStr "A tidy desk with a laptop");
         ("x_content", JDict [("platform", JStr "X"); ("text", JStr "Launch day")]);
         ("facebook_content", JDict [("platform", JStr "Facebook")]);
         ("instagram_content", JDict [("platform", JStr "Instagram")]);
         ("linkedin_content", JDict [("platform", JStr "LinkedIn")])].

(** A record whose [x_content] entry is [null]. *)
Definition content_null_entry : json :=
  JDict [("image_prompt", JStr "A tidy desk with a laptop");
         ("x_content", JNull)].

(** Records whose [x_content] platform is a number, and [null]. *)
Definition content_numeric_platform : json :=
  JDict [("image_prompt", JStr "A tidy desk with a laptop");
         ("x_content", JDict [("platform", JNum 5)]);
         ("facebook_content", JDict [("platform", JStr "Facebook")])].

Definition content_null_platform : json :=
  JDict [("image_prompt", JStr "A tidy desk with a laptop");
         ("x_content", JDict [("platform", JNull)]);
         ("facebook_content", JDict [("platform", JStr "Facebook")]);
         ("instagram_content", JDict [("platform", JStr "Facebook")])].

Definition image_sample : Imagedata :=
  mkImagedata "0f3a" [Byte.x89; Byte.x50; Byte.x4e; Byte.x47] "image/png" None.

Definition image_failed : Imagedata :=
  mkImagedata "0f3a" [] "image/png" (Some "quota exceeded").

(** An agent that raises on the query ["fail"], answers the query
    ["null entry"] with [content_null_entry], the query ["no image"] with
    a failed image, and everything else with the full package. *)
Definition agent_sample (query : string) : result (json * option Imagedata) :=
  if String.eqb query "fail" then Raise (PyExn "RuntimeError" "model unavailable")
  else if String.eqb query "null entry" then Ok (content_null_entry, Some image_sample)
  else if String.eqb query "no image" then Ok (content_sample, Some image_failed)
  else Ok (content_sample, Some image_sample).

Definition env_with (sender : option PushNotificationSenderAuth) : Env :=
  mkEnv agent_sample sender (fun _ => "{...}") (fun _ => "iVBORw==") (fun l => l).

Definition env_plain : Env := env_with None.

Definition verify_sample (url : string) : bool :=
  String.eqb url "https://hooks.example/ok".

(** Three senders: every delivery returns, every delivery raises, and
    only the delivery of a FAILED or ERROR snapshot raises. *)
Definition sender_up : PushNotificationSenderAuth :=
  mkSender verify_sample (fun _ _ _ => None).

Definition sender_down : PushNotificationSenderAuth :=
  mkSender verify_sample (fun _ _ _ => Some (PyExn "ConnectError" "connection refused")).

Definition sender_down_on_failed : PushNotificationSenderAuth :=
  mkSender verify_sample
    (fun _ _ task =>
       match state (status task) with
       | FAILED | ERROR => Some (PyExn "ConnectError" "connection refused")
       | _ => None
       end).

(** The first delivery is the only one that goes through. *)
Definition sender_up_once : PushNotificationSenderAuth :=
  mkSender verify_sample
    (fun n _ _ =>
       match n with
       | O => None
       | S _ => Some (PyExn "ConnectError" "connection refused")
       end).

Definition request_sample (task_id query : string)
    (push : option PushNotificationConfig) : SendTaskRequest :=
  mkRequest "req-1"
    (mkTaskSendParams task_id (mkMessage "user" [TextPart query])
       ["application/json"; "image/png"] None push).

Definition request_file (task_id : string) : SendTaskRequest :=
  mkRequest "req-2"
    (mkTaskSendParams task_id
       (mkMessage "user" [FilePart (mkFileContent "aGVsbG8=" "text/plain" "brief.txt")])
       ["application/json"; "image/png"] None None).

Definition push_ok : PushNotificationConfig :=
  mkPushNotificationConfig "https://hooks.example/ok" None.

Definition push_unverified : PushNotificationConfig :=
  mkPushNotificationConfig "https://hooks.example/other" None.

(** The store after one complete non-streaming request for task ["t1"]. *)
Definition completed_once : State :=
  final_state (on_send_task env_plain (request_sample "t1" "launch" None) empty_state).

Definition image_env_sample (key : option string) (answer : result (list ResponsePart))
  : ImageEnv :=
  mkImageEnv key (fun _ => answer) "0f3a".

(** An agent whose model answers with the full package; the image client
    answers with one text part and one image part, when a key is set. *)
Definition agent_env_sample (key : option string) : AgentEnv :=
  mkAgentEnv (fun _ => Ok (Some "{inputs}"))
             (fun text => if String.eqb text "{inputs}" then Ok (JDict [])
                          else Ok content_sample)
             (fun _ => Ok "{package}")
             key
             (fun _ => Ok [mkResponsePart None;
                           mkResponsePart
                             (Some (Some [Byte.x89; Byte.x50; Byte.x4e; Byte.x47],
                                    Some "image/png"))])
             "0f3a".

Definition env_of_agent (aenv : AgentEnv) : Env :=
  mkEnv (agent_of aenv) None (fun _ => "{...}") (fun _ => "iVBORw==") (fun l => l).

(** * Properties *)

(** ** Running coroutines step by step *)

Lemma bind_run {A B : Type} (m : M A) (k : A -> M B) (s s' : State) (a : A) :
  m s = (s', Ok a) -> bind m k s = k a s'.
Proof. intros Hm. unfold bind. now rewrite Hm. Qed.

Lemma bind_raise {A B : Type} (m : M A) (k : A -> M B) (s s' : State) (e : exn) :
  m s = (s', Raise e) -> bind m k s = (s', Raise e).
Proof. intros Hm. unfold bind. now rewrite Hm. Qed.

Lemma try_except_run {A : Type} (m : M A) (h : exn -> M A) (s s' : State) (a : A) :
  m s = (s', Ok a) -> try_except m h s = (s', Ok a).
Proof. intros Hm. unfold try_except. now rewrite Hm. Qed.

Lemma try_except_raise {A : Type} (m : M A) (h : exn -> M A) (s s' : State) (e : exn) :
  m s = (s', Raise e) -> try_except m h s = h e s'.
Proof. intros Hm. unfold try_except. now rewrite Hm. Qed.

Lemma update_store_found (s : State) (task_id : string) (task : Task)
    (new_status : option TaskStatus) (new_artifacts : option (list Artifact)) :
  tasks s !! task_id = Some task ->
  update_store task_id new_status new_artifacts s
  = (set_task_messages
       (match new_status with
        | Some st =>
            match message st with
            | Some m => append_message task_id m
            | None => fun l => l
            end
        | None => fun l => l
        end)
       (set_tasks (insert task_id (updated task new_status new_artifacts)) s),
     Ok (updated task new_status new_artifacts)).
Proof.
  intros Hfound. unfold update_store. rewrite Hfound. destruct task.
  destruct new_status as [st|], new_artifacts as [[|a l]|]; reflexivity.
Qed.

Lemma upsert_task_run (p : TaskSendParams) (s : State) :
  upsert_task p s
  = (set_tasks (insert (params_id p) (upserted s (params_id p))) s,
     Ok (upserted s (params_id p))).
Proof.
  unfold upsert_task, upserted.
  destruct (tasks s !! params_id p) as [task|] eqn:Hfound; [|reflexivity].
  f_equal. destruct s as [ts tm pi subs sch out calls]. cbn in *.
  unfold set_tasks. cbn. f_equal. symmetry. now apply insert_id.
Qed.

Lemma register_push_notification_run (env : Env) (request : SendTaskRequest)
    (s : State) :
  register_push_notification env request s
  = (registered env request s, Ok (registration_passes env request)).
Proof.
  unfold registered, registration_passes, register_push_notification,
    set_push_notification_info.
  destruct (pushNotification (params request)) as [cfg|]; [|reflexivity].
  destruct (notification_sender_auth env) as [sender|]; [|reflexivity].
  now destruct (verify_push_notification_url sender (url cfg)).
Qed.

Lemma registered_rejected (env : Env) (request : SendTaskRequest) (s : State) :
  registration_passes env request = false -> registered env request s = s.
Proof.
  unfold registered, registration_passes, register_push_notification,
    set_push_notification_info.
  destruct (pushNotification (params request)) as [cfg|]; [|discriminate].
  destruct (notification_sender_auth env) as [sender|]; [|discriminate].
  now intros ->.
Qed.

Lemma registered_tasks (env : Env) (request : SendTaskRequest) (s : State) :
  tasks (registered env request s) = tasks s.
Proof.
  unfold registered, register_push_notification, set_push_notification_info.
  destruct (pushNotification (params request)) as [cfg|]; [|reflexivity].
  destruct (notification_sender_auth env) as [sender|]; [|reflexivity].
  now destruct (verify_push_notification_url sender (url cfg)).
Qed.

Lemma registered_task_messages (env : Env) (request : SendTaskRequest) (s : State) :
  task_messages (registered env request s) = task_messages s.
Proof.
  unfold registered, register_push_notification, set_push_notification_info.
  destruct (pushNotification (params request)) as [cfg|]; [|reflexivity].
  destruct (notification_sender_auth env) as [sender|]; [|reflexivity].
  now destruct (verify_push_notification_url sender (url cfg)).
Qed.

Lemma registered_subscribers (env : Env) (request : SendTaskRequest) (s : State) :
  task_sse_subscribers (registered env request s) = task_sse_subscribers s.
Proof.
  unfold registered, register_push_notification, set_push_notification_info.
  destruct (pushNotification (params request)) as [cfg|]; [|reflexivity].
  destruct (notification_sender_auth env) as [sender|]; [|reflexivity].
  now destruct (verify_push_notification_url sender (url cfg)).
Qed.

Lemma registered_agent_calls (env : Env) (request : SendTaskRequest) (s : State) :
  agent_calls (registered env request s) = agent_calls s.
Proof.
  unfold registered, register_push_notification, set_push_notification_info.
  destruct (pushNotification (params request)) as [cfg|]; [|reflexivity].
  destruct (notification_sender_auth env) as [sender|]; [|reflexivity].
  now destruct (verify_push_notification_url sender (url cfg)).
Qed.

Lemma registered_scheduled (env : Env) (request : SendTaskRequest) (s : State) :
  scheduled (registered env request s) = scheduled s.
Proof.
  unfold registered, register_push_notification, set_push_notification_info.
  destruct (pushNotification (params request)) as [cfg|]; [|reflexivity].
  destruct (notification_sender_auth env) as [sender|]; [|reflexivity].
  now destruct (verify_push_notification_url sender (url cfg)).
Qed.

(** A notification, whether it returns or raises, changes nothing but the
    list of deliveries attempted. *)
Lemma notified_same_store (env : Env) (task : Task) (s : State) :
  same_store s (notified env task s).
Proof.
  unfold notified, notify, send_task_notification, same_store.
  destruct (notification_sender_auth env) as [sender|]; [|now cbn].
  unfold bind, has_push_notification_info, get_push_notification_info, deliver.
  cbn. destruct (push_notification_infos s !! tid task) as [cfg|] eqn:Hcfg; cbn;
    [|easy].
  rewrite Hcfg.
  now destruct (send_push_notification sender (length (outbox s)) (url cfg) task).
Qed.

Lemma notified_tasks (env : Env) (task : Task) (s : State) :
  tasks (notified env task s) = tasks s.
Proof. apply notified_same_store. Qed.

Lemma notified_task_messages (env : Env) (task : Task) (s : State) :
  task_messages (notified env task s) = task_messages s.
Proof. apply notified_same_store. Qed.

Lemma notified_subscribers (env : Env) (task : Task) (s : State) :
  task_sse_subscribers (notified env task s) = task_sse_subscribers s.
Proof. apply notified_same_store. Qed.

Lemma notified_agent_calls (env : Env) (task : Task) (s : State) :
  agent_calls (notified env task s) = agent_calls s.
Proof. apply notified_same_store. Qed.

Lemma notify_run (env : Env) (task : Task) (s : State) :
  exists r, notify env task s = (notified env task s, r).
Proof. unfold notified, final_state. destruct (notify env task s) as [s' r]. now exists r. Qed.

Lemma notify_quiet (env : Env) (task : Task) (s : State) :
  quiet env -> notify env task s = (notified env task s, Ok tt).
Proof.
  intros Hquiet. unfold notified, notify, send_task_notification.
  destruct (notification_sender_auth env) as [sender|] eqn:Hsender; [|reflexivity].
  unfold bind, has_push_notification_info, get_push_notification_info, deliver.
  cbn. destruct (push_notification_infos s !! tid task) as [cfg|] eqn:Hcfg; cbn;
    [|reflexivity].
  rewrite Hcfg. now rewrite (Hquiet sender Hsender).
Qed.

Create Rewrite HintDb store.
#[local] Hint Rewrite registered_tasks registered_task_messages
  registered_subscribers registered_agent_calls registered_scheduled notified_tasks
  notified_task_messages notified_subscribers notified_agent_calls : store.

(** Normalises the projections of a state built by the steps above. *)
Ltac store_simpl :=
  repeat (autorewrite with store;
          cbn [tasks task_messages push_notification_infos task_sse_subscribers
               scheduled outbox agent_calls set_tasks set_task_messages
               set_push_notification_infos set_task_sse_subscribers set_scheduled
               set_outbox set_agent_calls]).

(** ** The store *)

Lemma update_store_missing (s : State) (task_id : string)
    (new_status : option TaskStatus) (new_artifacts : option (list Artifact)) :
  tasks s !! task_id = None ->
  update_store task_id new_status new_artifacts s
  = (s, Raise (ValueError ("Task " ++ task_id ++ " not found"))).
Proof.
  intros Hnone. unfold update_store. now rewrite Hnone.
Qed.

(** C8. [update_store] on a task id that is not in the store raises the
    not-found [ValueError] and returns the state it was given: no task is
    created and the message history is untouched. *)
Theorem update_store_unknown_id (s : State) (task_id : string)
    (new_status : option TaskStatus) (new_artifacts : option (list Artifact)) :
  tasks s !! task_id = None ->
  let r := update_store task_id new_status new_artifacts s in
  outcome r = Raise (ValueError ("Task " ++ task_id ++ " not found")) /\
  final_state r = s /\
  tasks (final_state r) !! task_id = None /\
  task_messages (final_state r) = task_messages s.
Proof.
  intros Hnone r. subst r.
  rewrite update_store_missing by assumption. cbn.
  repeat split; assumption || reflexivity.
Qed.

Lemma update_store_unknown_id_witness :
  let r := update_store "t1" (Some (mkTaskStatus COMPLETED None))
             (Some [text_artifact env_plain content_sample]) empty_state in
  outcome r = Raise (ValueError "Task t1 not found") /\
  final_state r = empty_state /\
  tasks (final_state r) !! "t1" = None /\
  task_messages (final_state r) = task_messages empty_state.
Proof.
  apply (update_store_unknown_id empty_state "t1"). reflexivity.
Defined.

(** ** The image generator *)

Lemma first_inline_image_ok (image_id : string) (ps : list ResponsePart)
    (img : Imagedata) :
  first_inline_image image_id ps = Some (Ok img) ->
  exists p data mime,
    In p ps /\ inline_data p = Some (Some data, Some mime) /\
    img = mkImagedata image_id data mime None.
Proof.
  induction ps as [|p ps IH]; cbn; [discriminate|].
  destruct (inline_data p) as [[data mime]|] eqn:Hinline.
  - intros Hsome. exists p.
    destruct data as [data|], mime as [mime|]; cbn in Hsome; try discriminate.
    exists data, mime. injection Hsome as <-. auto.
  - intros Hrest. destruct (IH Hrest) as (q & data & mime & Hin & Hq & Himg).
    exists q, data, mime. auto.
Qed.

Lemma first_inline_image_none (image_id : string) (ps : list ResponsePart) :
  Forall (fun p => inline_data p = None) ps ->
  first_inline_image image_id ps = None.
Proof.
  induction 1 as [|p ps Hp _ IH]; cbn; [reflexivity|]. now rewrite Hp.
Qed.

Lemma generate_image_ok_inv (env : ImageEnv) (prompt : string) (img : Imagedata) :
  generate_image env prompt = Ok img ->
  prompt <> "" /\ generate_image_body env prompt = Ok img.
Proof.
  unfold generate_image.
  destruct (String.eqb_spec prompt "") as [->|Hne]; [discriminate|].
  destruct (generate_image_body env prompt) as [img'|e]; [|discriminate].
  intros [= ->]. auto.
Qed.

Lemma generate_image_body_raises (env : ImageEnv) (prompt : string) :
  is_ok (generate_image_body env prompt) = false ->
  generate_image env prompt
  = Raise (ValidationError "validation error for Imagedata").
Proof.
  unfold generate_image. intros Hbody.
  destruct (String.eqb prompt ""); [reflexivity|].
  destruct (generate_image_body env prompt); [discriminate|reflexivity].
Qed.

(** C10. [generate_image] never returns an [Imagedata] with [error] set.
    A value it returns has [error = None] and was built from an inline
    image part of the model response; on each of the four error paths
    (empty prompt, no API key, no inline part in the response, an
    exception of the client) the [Imagedata(error=...)] it tries to build
    lacks the required fields, so the call raises the validation error. *)
Theorem generate_image_never_returns_error (env : ImageEnv) (prompt : string) :
  (forall img, generate_image env prompt = Ok img ->
     error img = None /\
     exists ps p data mime,
       generate_content env prompt = Ok ps /\ In p ps /\
       inline_data p = Some (Some data, Some mime) /\
       bytestring img = data /\ mime_type img = mime) /\
  (prompt = "" ->
     generate_image env prompt
     = Raise (ValidationError "validation error for Imagedata")) /\
  (GOOGLE_API_KEY env = None \/ GOOGLE_API_KEY env = Some "" ->
     generate_image env prompt
     = Raise (ValidationError "validation error for Imagedata")) /\
  (forall ps, generate_content env prompt = Ok ps ->
     Forall (fun p => inline_data p = None) ps ->
     generate_image env prompt
     = Raise (ValidationError "validation error for Imagedata")) /\
  (forall e, generate_content env prompt = Raise e ->
     generate_image env prompt
     = Raise (ValidationError "validation error for Imagedata")).
Proof.
  repeat apply conj.
  - intros img Hok. apply generate_image_ok_inv in Hok as [_ Hbody].
    unfold generate_image_body in Hbody.
    destruct (GOOGLE_API_KEY env) as [[|c key]|]; try discriminate.
    destruct (generate_content env prompt) as [ps|e]; [|discriminate].
    cbn in Hbody.
    destruct (first_inline_image (uuid4_hex env) ps) as [r|] eqn:Hfirst;
      [|discriminate].
    subst r. apply first_inline_image_ok in Hfirst
      as (p & data & mime & Hin & Hp & ->).
    split; [reflexivity|]. exists ps, p, data, mime. auto.
  - intros ->. reflexivity.
  - intros Hkey. apply generate_image_body_raises.
    unfold generate_image_body. now destruct Hkey as [-> | ->].
  - intros ps Hps Hnone. apply generate_image_body_raises.
    unfold generate_image_body. rewrite Hps. cbn.
    rewrite first_inline_image_none by assumption.
    now destruct (GOOGLE_API_KEY env) as [[|c key]|].
  - intros e He. apply generate_image_body_raises.
    unfold generate_image_body. rewrite He.
    now destruct (GOOGLE_API_KEY env) as [[|c key]|].
Qed.

Lemma generate_image_never_returns_error_witness :
  generate_image (image_env_sample (Some "key") (Ok [mkResponsePart None])) "a cat"
  = Raise (ValidationError "validation error for Imagedata")
  /\ generate_image (image_env_sample None (Ok [])) "a cat"
     = Raise (ValidationError "validation error for Imagedata")
  /\ generate_image (image_env_sample (Some "key") (Ok [])) ""
     = Raise (ValidationError "validation error for Imagedata")
  /\ generate_image
       (image_env_sample (Some "key") (Raise (PyExn "ClientError" "quota"))) "a cat"
     = Raise (ValidationError "validation error for Imagedata").
Proof.
  split; [|split; [|split]].
  - destruct (generate_image_never_returns_error
                (image_env_sample (Some "key") (Ok [mkResponsePart None])) "a cat")
      as (_ & _ & _ & Hparts & _).
    apply (Hparts [mkResponsePart None]); [reflexivity|].
    repeat constructor.
  - destruct (generate_image_never_returns_error
                (image_env_sample None (Ok [])) "a cat") as (_ & _ & Hkey & _).
    apply Hkey. left. reflexivity.
  - destruct (generate_image_never_returns_error
                (image_env_sample (Some "key") (Ok [])) "") as (_ & Hprompt & _).
    apply Hprompt. reflexivity.
  - destruct (generate_image_never_returns_error
                (image_env_sample (Some "key") (Raise (PyExn "ClientError" "quota")))
                "a cat") as (_ & _ & _ & _ & Hraise).
    apply (Hraise (PyExn "ClientError" "quota")). reflexivity.
Defined.

(** A response with an inline image part is the case that returns. *)
Example generate_image_returns_image :
  generate_image
    (image_env_sample (Some "key")
       (Ok [mkResponsePart None;
            mkResponsePart (Some (Some [Byte.x89; Byte.x50], Some "image/png"))]))
    "a cat"
  = Ok (mkImagedata "0f3a" [Byte.x89; Byte.x50] "image/png" None).
Proof. reflexivity. Qed.

(** ** What a run leaves untouched *)

Lemma steps_ret {A : Type} (R : State -> State -> Prop) `{!Reflexive R} (a : A) :
  steps R (ret a).
Proof. intros s. cbn. reflexivity. Qed.

Lemma steps_lift {A : Type} (R : State -> State -> Prop) `{!Reflexive R}
    (r : result A) :
  steps R (lift r).
Proof. intros s. cbn. reflexivity. Qed.

Lemma steps_bind {A B : Type} (R : State -> State -> Prop) `{!Transitive R}
    (m : M A) (k : A -> M B) :
  steps R m -> (forall a, steps R (k a)) -> steps R (bind m k).
Proof.
  intros Hm Hk s. specialize (Hm s). unfold bind.
  destruct (m s) as [s' [a|e]]; cbn in *; [|assumption].
  transitivity s'; [assumption|apply Hk].
Qed.

Lemma steps_try_except {A : Type} (R : State -> State -> Prop) `{!Transitive R}
    (m : M A) (h : exn -> M A) :
  steps R m -> (forall e, steps R (h e)) -> steps R (try_except m h).
Proof.
  intros Hm Hh s. specialize (Hm s). unfold try_except.
  destruct (m s) as [s' [a|e]]; cbn in *; [assumption|].
  transitivity s'; [assumption|apply Hh].
Qed.

#[local] Instance frame_preorder (task_id : string) : PreOrder (frame task_id).
Proof.
  split.
  - intros s other _. reflexivity.
  - intros s1 s2 s3 H12 H23 other Hne. now rewrite (H23 other Hne), (H12 other Hne).
Qed.

Lemma steps_same_tasks {A : Type} (task_id : string) (m : M A) :
  (forall s, tasks (final_state (m s)) = tasks s) -> steps (frame task_id) m.
Proof. intros Hsame s other _. now rewrite Hsame. Qed.

Lemma update_store_frame (task_id : string) (new_status : option TaskStatus)
    (new_artifacts : option (list Artifact)) :
  steps (frame task_id) (update_store task_id new_status new_artifacts).
Proof.
  intros s other Hne. unfold update_store.
  destruct (tasks s !! task_id) as [task|]; cbn; [|reflexivity].
  now apply lookup_insert_ne.
Qed.

Lemma upsert_task_frame (p : TaskSendParams) :
  steps (frame (params_id p)) (upsert_task p).
Proof.
  intros s other Hne. rewrite upsert_task_run. cbn. now apply lookup_insert_ne.
Qed.

Lemma notify_frame (task_id : string) (env : Env) (task : Task) :
  steps (frame task_id) (notify env task).
Proof. apply steps_same_tasks. intros s. apply notified_tasks. Qed.

Lemma register_push_notification_frame (task_id : string) (env : Env)
    (request : SendTaskRequest) :
  steps (frame task_id) (register_push_notification env request).
Proof. apply steps_same_tasks. intros s. apply registered_tasks. Qed.

Lemma invoke_frame (task_id : string) (env : Env) (query : string) :
  steps (frame task_id) (invoke env query).
Proof. now apply steps_same_tasks. Qed.

Lemma append_task_history_frame (task_id : string) (task : Task)
    (history_length : option nat) :
  steps (frame task_id) (append_task_history task history_length).
Proof. now apply steps_same_tasks. Qed.

Lemma enqueue_events_for_sse_frame (task_id id : string) (ev : Event) :
  steps (frame task_id) (enqueue_events_for_sse id ev).
Proof. now apply steps_same_tasks. Qed.

Lemma setup_sse_consumer_frame (task_id id : string) (resume : bool) :
  steps (frame task_id) (setup_sse_consumer id resume).
Proof. now apply steps_same_tasks. Qed.

Lemma create_task_frame (task_id : string) (request : SendTaskRequest) :
  steps (frame task_id) (create_task request).
Proof. now apply steps_same_tasks. Qed.

Create HintDb steps.
#[local] Hint Resolve update_store_frame upsert_task_frame notify_frame
  register_push_notification_frame invoke_frame append_task_history_frame
  enqueue_events_for_sse_frame setup_sse_consumer_frame create_task_frame : steps.

(** Splits a coroutine into its steps and closes the primitive ones. *)
Ltac steps_tac :=
  cbv zeta;
  repeat first
    [ apply steps_ret; typeclasses eauto
    | apply steps_lift; typeclasses eauto
    | solve [auto with steps]
    | apply steps_bind; [typeclasses eauto| |intros ?]
    | apply steps_try_except; [typeclasses eauto| |intros ?]
    | match goal with
      | |- steps _ (if ?b then _ else _) => destruct b
      | |- steps _ (match ?x with _ => _ end) => destruct x
      end ].

Lemma _process_agent_response_frame (env : Env) (request : SendTaskRequest)
    (content_data : json) (image_data : option Imagedata) :
  steps (frame (params_id (params request)))
        (_process_agent_response env request content_data image_data).
Proof. unfold _process_agent_response. steps_tac. Qed.

Lemma on_send_task_frame (env : Env) (request : SendTaskRequest) :
  steps (frame (params_id (params request))) (on_send_task env request).
Proof.
  unfold on_send_task. steps_tac.
Qed.

Lemma _run_streaming_content_creation_frame (env : Env) (request : SendTaskRequest) :
  steps (frame (params_id (params request)))
        (_run_streaming_content_creation env request).
Proof. unfold _run_streaming_content_creation. steps_tac. Qed.

Lemma on_send_task_subscribe_frame (env : Env) (request : SendTaskRequest) :
  steps (frame (params_id (params request))) (on_send_task_subscribe env request).
Proof. unfold on_send_task_subscribe. steps_tac. Qed.

(** ** Terminal states *)


(** ** Rejected push-notification configurations *)

Lemma on_send_task_rejects_unverified (env : Env) (request : SendTaskRequest)
    (s : State) :
  _validate_request request = None ->
  registration_passes env request = false ->
  on_send_task env request s
  = (s, Ok (mkResponse (request_id request) None
              (Some (InvalidParamsError "Push notification URL is invalid")))).
Proof.
  intros Hvalid Hreject. unfold on_send_task. rewrite Hvalid.
  rewrite (bind_run _ _ _ _ _ (register_push_notification_run env request s)).
  rewrite Hreject, registered_rejected by assumption. reflexivity.
Qed.

(** C3 (the code at the failing input). With a configuration whose URL
    fails the challenge and a store without the task, [on_send_task]
    answers InvalidParams and leaves the state as it was, while
    [on_send_task_subscribe] answers InvalidParams after [upsert_task] has
    run: the store then holds the task, in state SUBMITTED. *)
Theorem subscribe_creates_task_before_rejecting (env : Env)
    (request : SendTaskRequest) (s : State) :
  _validate_request request = None ->
  registration_passes env request = false ->
  tasks s !! params_id (params request) = None ->
  on_send_task env request s
  = (s, Ok (mkResponse (request_id request) None
              (Some (InvalidParamsError "Push notification URL is invalid")))) /\
  outcome (on_send_task_subscribe env request s)
  = Ok (ErrorResponse
          (mkResponse (request_id request) None
             (Some (InvalidParamsError "Push notification URL is invalid")))) /\
  task_state (final_state (on_send_task_subscribe env request s))
             (params_id (params request)) = Some SUBMITTED.
Proof.
  intros Hvalid Hreject Hnone.
  split; [now apply on_send_task_rejects_unverified|].
  unfold on_send_task_subscribe. rewrite Hvalid.
  erewrite try_except_run.
  2:{ rewrite (bind_run _ _ _ _ _ (upsert_task_run _ _)).
      rewrite (bind_run _ _ _ _ _ (register_push_notification_run _ _ _)).
      rewrite Hreject. reflexivity. }
  cbn. split; [reflexivity|].
  rewrite registered_rejected by assumption.
  unfold task_state, upserted. cbn. rewrite lookup_insert_eq, Hnone. reflexivity.
Qed.

Lemma subscribe_creates_task_before_rejecting_witness :
  let env := env_with (Some sender_up) in
  let request := request_sample "t1" "launch" (Some push_unverified) in
  on_send_task env request empty_state
  = (empty_state,
     Ok (mkResponse "req-1" None
           (Some (InvalidParamsError "Push notification URL is invalid")))) /\
  outcome (on_send_task_subscribe env request empty_state)
  = Ok (ErrorResponse
          (mkResponse "req-1" None
             (Some (InvalidParamsError "Push notification URL is invalid")))) /\
  task_state (final_state (on_send_task_subscribe env request empty_state)) "t1"
  = Some SUBMITTED.
Proof.
  apply (subscribe_creates_task_before_rejecting
           (env_with (Some sender_up))
           (request_sample "t1" "launch" (Some push_unverified)) empty_state);
    reflexivity.
Defined.

(** ** Requests whose first part is not text *)

Lemma _get_user_query_file (p : TaskSendParams) (f : FileContent) (rest : list Part) :
  parts (params_message p) = FilePart f :: rest ->
  _get_user_query p = Raise (ValueError "Only text parts are supported").
Proof. intros Hparts. unfold _get_user_query. now rewrite Hparts. Qed.

(** [on_send_task] on an accepted request, from the notification of the
    WORKING status on. *)
Lemma on_send_task_reaches_working (env : Env) (request : SendTaskRequest)
    (s : State) :
  accepted env request = true ->
  on_send_task env request s
  = bind (notify env (working_task env request s))
      (fun _ =>
         let* query := lift (_get_user_query (params request)) in
         try_except (on_send_task_try env request query)
                    (on_send_task_except env request))
      (working_state env request s).
Proof.
  intros Haccepted. unfold on_send_task.
  unfold accepted in Haccepted.
  destruct (_validate_request request); [discriminate|].
  rewrite (bind_run _ _ _ _ _ (register_push_notification_run env request s)).
  rewrite Haccepted. cbn [negb].
  rewrite (bind_run _ _ _ _ _ (upsert_task_run _ _)).
  erewrite bind_run; [reflexivity|].
  rewrite (update_store_found _ _
             (upserted (registered env request s) (params_id (params request))));
    [reflexivity|].
  cbn. apply lookup_insert_eq.
Qed.

Lemma working_state_tasks (env : Env) (request : SendTaskRequest) (s : State) :
  tasks (working_state env request s) !! params_id (params request)
  = Some (working_task env request s).
Proof. unfold working_state. cbn. apply lookup_insert_eq. Qed.

Lemma working_state_task_messages (env : Env) (request : SendTaskRequest)
    (s : State) :
  task_messages (working_state env request s) = task_messages s.
Proof. unfold working_state. cbn. apply registered_task_messages. Qed.

Lemma working_state_agent_calls (env : Env) (request : SendTaskRequest) (s : State) :
  agent_calls (working_state env request s) = agent_calls s.
Proof. unfold working_state. cbn. apply registered_agent_calls. Qed.

(** C9 (as stated, refuted). A subscribe request for a new task whose
    message starts with a file part: after the call and the run of the
    scheduled coroutine the task is SUBMITTED, not WORKING, and its one
    subscriber queue is empty. *)
Lemma streaming_file_request_stays_submitted :
  let s1 :=
    final_state (on_send_task_subscribe env_plain (request_file "t1") empty_state) in
  outcome (on_send_task_subscribe env_plain (request_file "t1") empty_state)
  = Ok (EventStream "req-2" "t1" 0) /\
  task_state (run_scheduled env_plain s1) "t1" = Some SUBMITTED /\
  task_state (run_scheduled env_plain s1) "t1" <> Some WORKING /\
  queues_of (run_scheduled env_plain s1) "t1" = [[]].
Proof. vm_compute. repeat split. discriminate. Qed.

(** C9 (amended). When the first part of the message is a file part,
    [_get_user_query] raises the [ValueError].  On the non-streaming path
    an accepted request has by then created the task and set it to
    WORKING: [on_send_task] raises instead of returning a response, the
    task stays WORKING, no status message is logged and the agent is not
    called.  On the streaming path the scheduled coroutine raises before
    its handler and leaves the whole state as it found it, so the task
    keeps the state it had (SUBMITTED when the subscribe call created it)
    and no event is enqueued. *)
Theorem non_text_query_leaves_task_unfinished (env : Env)
    (request : SendTaskRequest) (s : State) (f : FileContent) (rest : list Part) :
  parts (params_message (params request)) = FilePart f :: rest ->
  _get_user_query (params request)
  = Raise (ValueError "Only text parts are supported") /\
  (accepted env request = true ->
   let r := on_send_task env request s in
   task_state (final_state r) (params_id (params request)) = Some WORKING /\
   (exists e, outcome r = Raise e) /\
   (quiet env -> outcome r = Raise (ValueError "Only text parts are supported")) /\
   task_messages (final_state r) = task_messages s /\
   agent_calls (final_state r) = agent_calls s) /\
  _run_streaming_content_creation env request s
  = (s, Raise (ValueError "Only text parts are supported")) /\
  (accepted env request = true ->
   tasks s !! params_id (params request) = None ->
   task_state (final_state (on_send_task_subscribe env request s))
              (params_id (params request)) = Some SUBMITTED).
Proof.
  intros Hparts.
  pose proof (_get_user_query_file _ _ _ Hparts) as Hquery.
  split; [assumption|]. split; [|split].
  - intros Haccepted r. subst r.
    rewrite on_send_task_reaches_working by assumption.
    set (task := working_task env request s).
    set (working := working_state env request s).
    assert (Hquiet : quiet env -> notify env task working
                                  = (notified env task working, Ok tt))
      by apply notify_quiet.
    destruct (notify_run env task working) as [r Hr].
    assert (Hstate : task_state (notified env task working)
                                (params_id (params request)) = Some WORKING).
    { unfold task_state. rewrite notified_tasks. subst working.
      now rewrite working_state_tasks. }
    assert (Hlog : task_messages (notified env task working) = task_messages s).
    { rewrite notified_task_messages. apply working_state_task_messages. }
    assert (Hcalls : agent_calls (notified env task working) = agent_calls s).
    { rewrite notified_agent_calls. apply working_state_agent_calls. }
    destruct r as [[]|e].
    + rewrite (bind_run _ _ _ _ _ Hr). rewrite Hquery.
      unfold bind, lift. cbn. repeat split; eauto.
    + rewrite (bind_raise _ _ _ _ _ Hr). cbn. repeat split; eauto.
      intros Hq. rewrite (Hquiet Hq) in Hr. discriminate.
  - unfold _run_streaming_content_creation. cbv zeta. rewrite Hquery. reflexivity.
  - intros Haccepted Hnone. unfold on_send_task_subscribe.
    unfold accepted in Haccepted.
    destruct (_validate_request request); [discriminate|].
    erewrite try_except_run.
    2:{ rewrite (bind_run _ _ _ _ _ (upsert_task_run _ _)).
        rewrite (bind_run _ _ _ _ _ (register_push_notification_run _ _ _)).
        rewrite Haccepted. cbn [negb]. reflexivity. }
    unfold task_state, upserted. cbn. rewrite registered_tasks. cbn.
    rewrite lookup_insert_eq, Hnone. reflexivity.
Qed.

Lemma non_text_query_leaves_task_unfinished_witness :
  let request := request_file "t1" in
  task_state (final_state (on_send_task env_plain request empty_state)) "t1"
  = Some WORKING /\
  outcome (on_send_task env_plain request empty_state)
  = Raise (ValueError "Only text parts are supported") /\
  _run_streaming_content_creation env_plain request empty_state
  = (empty_state, Raise (ValueError "Only text parts are supported")) /\
  task_state (final_state (on_send_task_subscribe env_plain request empty_state)) "t1"
  = Some SUBMITTED.
Proof.
  destruct (non_text_query_leaves_task_unfinished env_plain (request_file "t1")
              empty_state (mkFileContent "aGVsbG8=" "text/plain" "brief.txt") []
              eq_refl) as (_ & Hsend & Hrun & Hsubscribe).
  destruct (Hsend eq_refl) as (Hworking & _ & Hraise & _).
  split; [|split; [|split]].
  - exact Hworking.
  - apply Hraise. intros sender Hsender. discriminate.
  - exact Hrun.
  - apply Hsubscribe; reflexivity.
Defined.

(** ** Rules of the run judgement *)

Lemma queues_append_append (qs : list (list Event)) (e1 e2 : list Event) :
  List.map (fun q => q ++ e2) (List.map (fun q => q ++ e1) qs)
  = List.map (fun q => q ++ (e1 ++ e2)) qs.
Proof.
  rewrite List.map_map. apply List.map_ext. intros q. now rewrite <- app_assoc.
Qed.

Lemma queues_append_nil (qs : list (list Event)) :
  List.map (fun q => q ++ []) qs = qs.
Proof.
  rewrite <- (List.map_id qs) at 2. apply List.map_ext. intros q. apply app_nil_r.
Qed.

Lemma exec_bind {A B : Type} (task_id : string) (task task1 task2 : Task)
    (m : M A) (k : A -> M B) (s : State) (a : A)
    (e1 e2 : list Event) (c1 c2 : list string) (r : result B) :
  exec task_id task m s task1 e1 c1 (Ok a) ->
  exec task_id task1 (k a) (final_state (m s)) task2 e2 c2 r ->
  exec task_id task (bind m k) s task2 (e1 ++ e2) (c1 ++ c2) r.
Proof.
  intros Hm Hk Hfound. destruct (Hm Hfound) as (Hr & Htask & Hqueues & Hcalls).
  unfold bind. destruct (m s) as [s1 r1]. cbn in *. subst r1.
  destruct (Hk Htask) as (Hr2 & Htask2 & Hqueues2 & Hcalls2).
  repeat apply conj; try assumption.
  - now rewrite Hqueues2, Hqueues, queues_append_append.
  - now rewrite Hcalls2, Hcalls, <- app_assoc.
Qed.

Lemma exec_bind_raise {A B : Type} (task_id : string) (task task1 : Task)
    (m : M A) (k : A -> M B) (s : State) (e : exn)
    (e1 : list Event) (c1 : list string) :
  exec task_id task m s task1 e1 c1 (Raise e) ->
  exec task_id task (bind m k) s task1 e1 c1 (Raise e).
Proof.
  intros Hm Hfound. destruct (Hm Hfound) as (Hr & Htask & Hqueues & Hcalls).
  unfold bind. destruct (m s) as [s1 r1]. cbn in *. subst r1. cbn. auto.
Qed.

Lemma exec_try_except_ok {A : Type} (task_id : string) (task task1 : Task)
    (m : M A) (h : exn -> M A) (s : State) (a : A)
    (e1 : list Event) (c1 : list string) :
  exec task_id task m s task1 e1 c1 (Ok a) ->
  exec task_id task (try_except m h) s task1 e1 c1 (Ok a).
Proof.
  intros Hm Hfound. destruct (Hm Hfound) as (Hr & Htask & Hqueues & Hcalls).
  unfold try_except. destruct (m s) as [s1 r1]. cbn in *. subst r1. cbn. auto.
Qed.

Lemma exec_try_except_raise {A : Type} (task_id : string) (task task1 task2 : Task)
    (m : M A) (h : exn -> M A) (s : State) (e : exn)
    (e1 e2 : list Event) (c1 c2 : list string) (r : result A) :
  exec task_id task m s task1 e1 c1 (Raise e) ->
  exec task_id task1 (h e) (final_state (m s)) task2 e2 c2 r ->
  exec task_id task (try_except m h) s task2 (e1 ++ e2) (c1 ++ c2) r.
Proof.
  intros Hm Hh Hfound. destruct (Hm Hfound) as (Hr & Htask & Hqueues & Hcalls).
  unfold try_except. destruct (m s) as [s1 r1]. cbn in *. subst r1.
  destruct (Hh Htask) as (Hr2 & Htask2 & Hqueues2 & Hcalls2).
  repeat apply conj; try assumption.
  - now rewrite Hqueues2, Hqueues, queues_append_append.
  - now rewrite Hcalls2, Hcalls, <- app_assoc.
Qed.

Lemma exec_ret {A : Type} (task_id : string) (task : Task) (a : A) (s : State) :
  exec task_id task (ret a) s task [] [] (Ok a).
Proof.
  intros Hfound. cbn. rewrite queues_append_nil, app_nil_r. auto.
Qed.

Lemma exec_lift {A : Type} (task_id : string) (task : Task) (r : result A)
    (s : State) :
  exec task_id task (lift r) s task [] [] r.
Proof.
  intros Hfound. cbn. rewrite queues_append_nil, app_nil_r. auto.
Qed.

Lemma exec_update_store (task_id : string) (task : Task)
    (new_status : option TaskStatus) (new_artifacts : option (list Artifact))
    (s : State) :
  exec task_id task (update_store task_id new_status new_artifacts) s
       (updated task new_status new_artifacts) [] []
       (Ok (updated task new_status new_artifacts)).
Proof.
  intros Hfound. rewrite (update_store_found _ _ _ _ _ Hfound). cbn.
  rewrite lookup_insert_eq, app_nil_r. unfold queues_of. cbn.
  rewrite queues_append_nil. auto.
Qed.

Lemma exec_notify (env : Env) (task_id : string) (task sent : Task) (s : State) :
  quiet env ->
  exec task_id task (notify env sent) s task [] [] (Ok tt).
Proof.
  intros Hquiet Hfound. rewrite (notify_quiet _ _ _ Hquiet). cbn.
  unfold queues_of. store_simpl. rewrite queues_append_nil, app_nil_r. auto.
Qed.

Lemma exec_enqueue_events_for_sse (task_id : string) (task : Task) (ev : Event)
    (s : State) :
  exec task_id task (enqueue_events_for_sse task_id ev) s task [ev] [] (Ok tt).
Proof.
  intros Hfound. cbn. rewrite app_nil_r. unfold queues_of. cbn.
  rewrite lookup_alter_eq.
  destruct (task_sse_subscribers s !! task_id); cbn; auto.
Qed.

Lemma exec_invoke (env : Env) (task_id : string) (task : Task) (query : string)
    (s : State) :
  exec task_id task (invoke env query) s task [] [query] (agent_invoke env query).
Proof.
  intros Hfound. cbn. unfold queues_of. cbn. rewrite queues_append_nil. auto.
Qed.

Lemma exec_append_task_history (task_id : string) (task copy : Task)
    (history_length : option nat) (s : State) :
  exec task_id task (append_task_history copy history_length) s task [] []
       (Ok (mkTask (tid copy) (status copy) (artifacts copy)
                   (trimmed_history s copy history_length))).
Proof.
  intros Hfound. cbn. rewrite queues_append_nil, app_nil_r. auto.
Qed.

Lemma exec_conv {A : Type} (task_id : string) (task task1 task2 : Task) (m : M A)
    (s : State) (e1 e2 : list Event) (c1 c2 : list string) (r1 r2 : result A) :
  exec task_id task m s task1 e1 c1 r1 ->
  task1 = task2 -> e1 = e2 -> c1 = c2 -> r1 = r2 ->
  exec task_id task m s task2 e2 c2 r2.
Proof. now intros Hexec <- <- <- <-. Qed.

Lemma exec_lift_eq {A : Type} (task_id : string) (task : Task) (r r' : result A)
    (s : State) :
  r = r' -> exec task_id task (lift r) s task [] [] r'.
Proof. intros <-. apply exec_lift. Qed.

Lemma exec_invoke_eq (env : Env) (task_id : string) (task : Task) (query : string)
    (r : result (json * option Imagedata)) (s : State) :
  agent_invoke env query = r ->
  exec task_id task (invoke env query) s task [] [query] r.
Proof. intros <-. apply exec_invoke. Qed.

(** Derives a run judgement step by step; the equations of the agent and
    of the summary are taken from the context. *)
Ltac exec_tac :=
  repeat first
    [ apply exec_ret
    | apply exec_update_store
    | apply exec_enqueue_events_for_sse
    | apply exec_append_task_history
    | apply exec_notify; assumption
    | apply exec_lift_eq; eassumption
    | apply exec_invoke_eq; eassumption
    | eapply exec_bind_raise; solve [exec_tac]
    | eapply exec_bind; [solve [exec_tac]|cbv beta zeta] ].

(** ** The non-streaming path, run *)

Lemma on_send_task_except_exec (env : Env) (request : SendTaskRequest) (e : exn)
    (task : Task) (s : State) :
  quiet env ->
  exec (params_id (params request)) task (on_send_task_except env request e) s
       (updated task (Some (failed_status e)) None) [] []
       (Ok (mkResponse (request_id request) None
              (Some (InternalError ("Error invoking agent: " ++ exn_str e)%string)))).
Proof.
  intros Hquiet. unfold on_send_task_except.
  eapply exec_conv; [exec_tac|reflexivity..].
Qed.

Lemma _process_agent_response_exec (env : Env) (request : SendTaskRequest)
    (content_data : json) (image_data : option Imagedata) (summary : string)
    (task : Task) (s : State) :
  quiet env ->
  make_summary env content_data image_data = Ok summary ->
  exists h,
    exec (params_id (params request)) task
         (_process_agent_response env request content_data image_data) s
         (updated task (Some (completed_status summary))
                  (Some (make_artifacts env content_data image_data)))
         [] []
         (Ok (mkResponse (request_id request)
                (Some (mkTask (tid task) (completed_status summary)
                         (artifacts
                            (updated task (Some (completed_status summary))
                               (Some (make_artifacts env content_data image_data))))
                         h))
                None)).
Proof.
  intros Hquiet Hsummary. unfold _process_agent_response. cbv zeta.
  eexists. eapply exec_conv; [exec_tac|reflexivity..].
Qed.

Lemma on_send_task_try_agent_raises (env : Env) (request : SendTaskRequest)
    (query : string) (e : exn) (task : Task) (s : State) :
  agent_invoke env query = Raise e ->
  exec (params_id (params request)) task (on_send_task_try env request query) s
       task [] [query] (Raise e).
Proof.
  intros Hagent. unfold on_send_task_try.
  eapply exec_conv; [exec_tac|reflexivity..].
Qed.

Lemma on_send_task_try_summary_raises (env : Env) (request : SendTaskRequest)
    (query : string) (content_data : json) (image_data : option Imagedata) (e : exn)
    (task : Task) (s : State) :
  agent_invoke env query = Ok (content_data, image_data) ->
  make_summary env content_data image_data = Raise e ->
  exec (params_id (params request)) task (on_send_task_try env request query) s
       task [] [query] (Raise e).
Proof.
  intros Hagent Hsummary. unfold on_send_task_try, _process_agent_response.
  eapply exec_conv; [exec_tac|reflexivity..].
Qed.

Lemma on_send_task_try_completes (env : Env) (request : SendTaskRequest)
    (query : string) (content_data : json) (image_data : option Imagedata)
    (summary : string) (task : Task) (s : State) :
  quiet env ->
  agent_invoke env query = Ok (content_data, image_data) ->
  make_summary env content_data image_data = Ok summary ->
  exists h,
    exec (params_id (params request)) task (on_send_task_try env request query) s
         (updated task (Some (completed_status summary))
                  (Some (make_artifacts env content_data image_data)))
         [] [query]
         (Ok (mkResponse (request_id request)
                (Some (mkTask (tid task) (completed_status summary)
                         (artifacts
                            (updated task (Some (completed_status summary))
                               (Some (make_artifacts env content_data image_data))))
                         h))
                None)).
Proof.
  intros Hquiet Hagent Hsummary. unfold on_send_task_try.
  destruct (_process_agent_response_exec env request content_data image_data
              summary task (final_state (invoke env query s)) Hquiet Hsummary)
    as [h Hprocess].
  exists h. eapply exec_conv;
    [eapply exec_bind; [exec_tac|cbv beta zeta; cbn [fst snd]; exact Hprocess]
    |reflexivity..].
Qed.

(** From the judgement of the [try]/[except] of [on_send_task] to the
    whole call, for an accepted request with a text query; [P] is what is
    known of the outcome. *)
Lemma on_send_task_exec (env : Env) (request : SendTaskRequest) (s : State)
    (query : string) (task' : Task) (events : list Event) (calls : list string)
    (P : result JSONRPCResponse -> Prop) :
  quiet env ->
  accepted env request = true ->
  _get_user_query (params request) = Ok query ->
  (forall s1,
     exists r,
       P r /\
       exec (params_id (params request)) (working_task env request s)
            (try_except (on_send_task_try env request query)
                        (on_send_task_except env request))
            s1 task' events calls r) ->
  P (outcome (on_send_task env request s)) /\
  tasks (final_state (on_send_task env request s)) !! params_id (params request)
  = Some task' /\
  agent_calls (final_state (on_send_task env request s)) = agent_calls s ++ calls.
Proof.
  intros Hquiet Haccepted Hquery Hrest.
  rewrite on_send_task_reaches_working by assumption.
  destruct (Hrest (notified env (working_task env request s)
                     (working_state env request s))) as (r & HP & Htry).
  assert (Hexec : exec (params_id (params request)) (working_task env request s)
            (bind (notify env (working_task env request s))
               (fun _ =>
                  let* query := lift (_get_user_query (params request)) in
                  try_except (on_send_task_try env request query)
                             (on_send_task_except env request)))
            (working_state env request s) task' events calls r).
  { eapply exec_conv;
      [eapply exec_bind; [exec_tac|];
       eapply exec_bind; [exec_tac|]; exact Htry
      |reflexivity..]. }
  destruct (Hexec (working_state_tasks env request s))
    as (Hr & Htask & _ & Hcalls).
  rewrite working_state_agent_calls in Hcalls. rewrite Hr. auto.
Qed.

(** ** The streaming path, run *)

Lemma _run_streaming_except_exec (env : Env) (request : SendTaskRequest) (e : exn)
    (task : Task) (s : State) :
  quiet env ->
  exec (params_id (params request)) task (_run_streaming_except env request e) s
       (updated task (Some (error_status e)) None)
       [TaskStatusUpdateEvent (params_id (params request)) (error_status e) true] []
       (Ok tt).
Proof.
  intros Hquiet. unfold _run_streaming_except. cbv zeta.
  eapply exec_conv; [exec_tac|reflexivity..].
Qed.

Lemma _run_streaming_try_agent_raises (env : Env) (request : SendTaskRequest)
    (query : string) (e : exn) (task : Task) (s : State) :
  quiet env ->
  agent_invoke env query = Raise e ->
  exec (params_id (params request)) task (_run_streaming_try env request query) s
       (updated
          (updated task
             (Some (working_status "Starting content creation process...")) None)
          (Some (working_status "Creating content package and generating image..."))
          None)
       (progress_events (params_id (params request))) [query] (Raise e).
Proof.
  intros Hquiet Hagent. unfold _run_streaming_try. cbv zeta.
  eapply exec_conv; [exec_tac|reflexivity..].
Qed.

Lemma _run_streaming_try_summary_raises (env : Env) (request : SendTaskRequest)
    (query : string) (content_data : json) (image_data : option Imagedata) (e : exn)
    (task : Task) (s : State) :
  quiet env ->
  agent_invoke env query = Ok (content_data, image_data) ->
  make_summary env content_data image_data = Raise e ->
  exec (params_id (params request)) task (_run_streaming_try env request query) s
       (streamed_task env task content_data image_data)
       (progress_events (params_id (params request))
        ++ artifact_events env (params_id (params request)) content_data image_data)
       [query] (Raise e).
Proof.
  intros Hquiet Hagent Hsummary. unfold _run_streaming_try. cbv zeta.
  unfold streamed_task, artifact_events, make_artifacts.
  destruct image_data as [image|]; [destruct (has_error image) eqn:Herror|].
  - eapply exec_conv; [exec_tac; cbn [fst snd]; rewrite Herror; exec_tac
                      |reflexivity..].
  - eapply exec_conv; [exec_tac; cbn [fst snd]; rewrite Herror; exec_tac
                      |reflexivity..].
  - eapply exec_conv; [exec_tac|reflexivity..].
Qed.

Lemma _run_streaming_try_completes (env : Env) (request : SendTaskRequest)
    (query : string) (content_data : json) (image_data : option Imagedata)
    (summary : string) (task : Task) (s : State) :
  quiet env ->
  agent_invoke env query = Ok (content_data, image_data) ->
  make_summary env content_data image_data = Ok summary ->
  exec (params_id (params request)) task (_run_streaming_try env request query) s
       (updated (streamed_task env task content_data image_data)
                (Some (completed_status summary)) None)
       (progress_events (params_id (params request))
        ++ artifact_events env (params_id (params request)) content_data image_data
        ++ [TaskStatusUpdateEvent (params_id (params request))
              (completed_status summary) true])
       [query] (Ok tt).
Proof.
  intros Hquiet Hagent Hsummary. unfold _run_streaming_try. cbv zeta.
  unfold streamed_task, artifact_events, make_artifacts.
  destruct image_data as [image|]; [destruct (has_error image) eqn:Herror|].
  - eapply exec_conv; [exec_tac; cbn [fst snd]; rewrite Herror; exec_tac
                      |reflexivity..].
  - eapply exec_conv; [exec_tac; cbn [fst snd]; rewrite Herror; exec_tac
                      |reflexivity..].
  - eapply exec_conv; [exec_tac|reflexivity..].
Qed.

(** The whole coroutine, from the judgement of its [try] block. *)
Lemma _run_streaming_content_creation_ok (env : Env) (request : SendTaskRequest)
    (query : string) (task task' : Task) (events : list Event)
    (calls : list string) (s : State) :
  _get_user_query (params request) = Ok query ->
  exec (params_id (params request)) task (_run_streaming_try env request query) s
       task' events calls (Ok tt) ->
  exec (params_id (params request)) task
       (_run_streaming_content_creation env request) s task' events calls (Ok tt).
Proof.
  intros Hquery Htry. unfold _run_streaming_content_creation. cbv zeta.
  eapply exec_conv;
    [eapply exec_bind; [exec_tac|]; apply exec_try_except_ok; exact Htry
    |reflexivity..].
Qed.

Lemma _run_streaming_content_creation_raise (env : Env) (request : SendTaskRequest)
    (query : string) (task task' : Task) (events : list Event)
    (calls : list string) (e : exn) (s : State) :
  quiet env ->
  _get_user_query (params request) = Ok query ->
  exec (params_id (params request)) task (_run_streaming_try env request query) s
       task' events calls (Raise e) ->
  exec (params_id (params request)) task
       (_run_streaming_content_creation env request) s
       (updated task' (Some (error_status e)) None)
       (events
        ++ [TaskStatusUpdateEvent (params_id (params request)) (error_status e) true])
       calls (Ok tt).
Proof.
  intros Hquiet Hquery Htry. unfold _run_streaming_content_creation. cbv zeta.
  eapply exec_conv;
    [eapply exec_bind; [exec_tac|];
     eapply exec_try_except_raise; [exact Htry|];
     apply _run_streaming_except_exec; assumption
    |try reflexivity..].
  apply app_nil_r.
Qed.

(** What an accepted subscribe call hands to the coroutine it schedules:
    the task is stored, a new empty queue is attached, and the caller gets
    the event source over that queue. *)
Lemma on_send_task_subscribe_accepts (env : Env) (request : SendTaskRequest)
    (s : State) :
  accepted env request = true ->
  let r := on_send_task_subscribe env request s in
  let task_id := params_id (params request) in
  outcome r = Ok (EventStream (request_id request) task_id
                    (length (queues_of s task_id))) /\
  tasks (final_state r) !! task_id
  = Some (upserted s task_id) /\
  queues_of (final_state r) task_id = queues_of s task_id ++ [[]] /\
  scheduled (final_state r) = scheduled s ++ [request].
Proof.
  intros Haccepted r task_id. subst r task_id. unfold on_send_task_subscribe.
  unfold accepted in Haccepted.
  destruct (_validate_request request); [discriminate|].
  erewrite try_except_run.
  2:{ rewrite (bind_run _ _ _ _ _ (upsert_task_run _ _)).
      rewrite (bind_run _ _ _ _ _ (register_push_notification_run _ _ _)).
      rewrite Haccepted. cbn [negb]. cbv zeta.
      erewrite bind_run by reflexivity. erewrite bind_run by reflexivity.
      reflexivity. }
  unfold queues_of, outcome, final_state, dequeue_events_for_sse. cbn [fst snd].
  store_simpl. rewrite !lookup_insert_eq. auto.
Qed.

(** ** The event sequence of a streaming run *)


Lemma quiet_env_plain : quiet env_plain.
Proof. intros sender Hsender. discriminate. Qed.

Lemma quiet_sender_up : quiet (env_with (Some sender_up)).
Proof. intros sender [= <-] n url task. reflexivity. Qed.

(** ** A failing agent *)

Lemma working_task_artifacts (env : Env) (request : SendTaskRequest) (s : State) :
  artifacts_of (working_task env request s)
  = task_artifacts s (params_id (params request)).
Proof.
  unfold working_task, upserted, task_artifacts, artifacts_of.
  rewrite registered_tasks.
  now destruct (tasks s !! params_id (params request)) as [task|].
Qed.

Lemma task_artifacts_lookup (s : State) (task_id : string) (task : Task) :
  tasks s !! task_id = Some task -> task_artifacts s task_id = artifacts_of task.
Proof. intros Hfound. unfold task_artifacts. now rewrite Hfound. Qed.

Lemma task_status_lookup (s : State) (task_id : string) (task : Task) :
  tasks s !! task_id = Some task -> task_status s task_id = Some (status task).
Proof. intros Hfound. unfold task_status. now rewrite Hfound. Qed.


(** ** The artifacts of a completed task *)

Lemma make_artifacts_length (env : Env) (content_data : json)
    (image_data : option Imagedata) :
  length (make_artifacts env content_data image_data)
  = if image_available image_data then 2 else 1.
Proof.
  unfold make_artifacts, image_available.
  destruct image_data as [image|]; [destruct (has_error image)|]; reflexivity.
Qed.

(** [_process_agent_response] up to its notification: the store it leaves
    does not depend on what the notification does. *)
Lemma _process_agent_response_store (env : Env) (request : SendTaskRequest)
    (content_data : json) (image_data : option Imagedata) (summary : string)
    (task : Task) (s : State) :
  tasks s !! params_id (params request) = Some task ->
  make_summary env content_data image_data = Ok summary ->
  tasks (final_state (_process_agent_response env request content_data image_data s))
    !! params_id (params request)
  = Some (updated task (Some (completed_status summary))
            (Some (make_artifacts env content_data image_data))).
Proof.
  intros Hfound Hsummary. unfold _process_agent_response. cbv zeta.
  rewrite Hsummary.
  erewrite bind_run by reflexivity.
  rewrite (bind_run _ _ _ _ _ (update_store_found _ _ _ _ _ Hfound)).
  erewrite bind_run by reflexivity.
  match goal with
  | |- context [bind (notify env ?t) ?k ?s1] =>
      destruct (notify_run env t s1) as [[[]|e] Hnotify];
      [rewrite (bind_run _ _ _ _ _ Hnotify)|rewrite (bind_raise _ _ _ _ _ Hnotify)]
  end; cbn; rewrite notified_tasks; cbn; apply lookup_insert_eq.
Qed.




(** ** The summary *)

Lemma py_join_from_strings (i : nat) (l : list string) :
  py_join_from i (List.map JStr l) = Ok l.
Proof.
  revert i. induction l as [|v l IH]; intros i; cbn; [reflexivity|].
  now rewrite IH.
Qed.

Lemma py_join_strings (sep : string) (l : list string) :
  py_join sep (List.map JStr l) = Ok (String.concat sep l).
Proof. unfold py_join. now rewrite py_join_from_strings. Qed.

Lemma image_clause_cases (image_data : option Imagedata) :
  image_clause image_data
  = match image_data with
    | Some image =>
        match error image with
        | Some e =>
            if String.eqb e "" then " Generated matching image based on content theme."
            else (" Image generation failed: " ++ e)%string
        | None => " Generated matching image based on content theme."
        end
    | None => ""
    end.
Proof.
  unfold image_clause, has_error. destruct image_data as [image|]; [|reflexivity].
  destruct (error image) as [e|]; [|reflexivity]. now destruct (String.eqb e "").
Qed.

Lemma set_iter_ok_env_plain : set_iter_ok env_plain.
Proof. intros l. reflexivity. Qed.

(** ** Notifications that fail *)

(** C2 (as stated, refuted). The same request, with a verified
    push-notification configuration, under three senders.  When every
    delivery returns, [on_send_task] returns a response and the task is
    COMPLETED, and the streaming run enqueues five events, the last one
    final.  When every delivery raises, [on_send_task] raises at the
    WORKING notification, with the task left WORKING, and the streaming run
    enqueues nothing.  When only the first delivery returns, the raise of
    the COMPLETED notification is caught by the handler of [on_send_task],
    which sets the task to FAILED. *)
Lemma notification_failure_changes_outcome :
  let request := request_sample "t1" "launch" (Some push_ok) in
  let up := env_with (Some sender_up) in
  let down := env_with (Some sender_down) in
  let up_once := env_with (Some sender_up_once) in
  is_ok (outcome (on_send_task up request empty_state)) = true /\
  task_state (final_state (on_send_task up request empty_state)) "t1"
  = Some COMPLETED /\
  outcome (on_send_task down request empty_state)
  = Raise (PyExn "ConnectError" "connection refused") /\
  task_state (final_state (on_send_task down request empty_state)) "t1"
  = Some WORKING /\
  task_state (final_state (on_send_task up_once request empty_state)) "t1"
  = Some FAILED /\
  List.map (List.map event_final)
           (queues_of (subscribe_and_run up request empty_state) "t1")
  = [[false; false; false; false; true]] /\
  queues_of (subscribe_and_run down request empty_state) "t1" = [[]].
Proof. vm_compute. repeat split. Qed.

(** C2 (amended). [send_task_notification] leaves the task store, the
    message history and the subscriber queues as they are, and it returns
    normally when no sender is configured, when no configuration is
    registered for the task, and when the delivery returns.  An exception
    raised by the delivery is not caught: [send_task_notification] raises
    it, and when this happens at the WORKING notification of an accepted
    request [on_send_task] raises it too, returns no response and leaves
    the task WORKING. *)
Theorem send_task_notification_propagates (env : Env) (task : Task) (s : State) :
  same_store s (final_state (send_task_notification env task s)) /\
  (notification_sender_auth env = None \/
   push_notification_infos s !! tid task = None ->
   send_task_notification env task s = (s, Ok tt)) /\
  (forall sender cfg,
     notification_sender_auth env = Some sender ->
     push_notification_infos s !! tid task = Some cfg ->
     outcome (send_task_notification env task s)
     = match send_push_notification sender (length (outbox s)) (url cfg) task with
       | Some e => Raise e
       | None => Ok tt
       end /\
     outbox (final_state (send_task_notification env task s))
     = outbox s ++ [(url cfg, task)]) /\
  (forall request s0 e,
     accepted env request = true ->
     outcome (notify env (working_task env request s0) (working_state env request s0))
     = Raise e ->
     outcome (on_send_task env request s0) = Raise e /\
     task_state (final_state (on_send_task env request s0))
                (params_id (params request)) = Some WORKING).
Proof.
  split; [|split; [|split]].
  - pose proof (notified_same_store env task s) as Hsame.
    unfold notified, notify in Hsame.
    destruct (notification_sender_auth env) as [sender|] eqn:Hsender;
      [exact Hsame|].
    unfold send_task_notification. rewrite Hsender. exact Hsame.
  - intros Hnone. unfold send_task_notification.
    destruct (notification_sender_auth env) as [sender|]; [|reflexivity].
    destruct Hnone as [Hnone|Hnone]; [discriminate|].
    unfold bind, has_push_notification_info. now rewrite Hnone.
  - intros sender cfg Hsender Hcfg.
    unfold send_task_notification. rewrite Hsender.
    unfold bind, has_push_notification_info, get_push_notification_info, deliver.
    cbn. rewrite Hcfg. cbn. rewrite Hcfg.
    now destruct (send_push_notification sender (length (outbox s)) (url cfg) task).
  - intros request s0 e Haccepted Hraise.
    rewrite on_send_task_reaches_working by assumption.
    destruct (notify_run env (working_task env request s0)
                (working_state env request s0)) as [r Hnotify].
    rewrite Hnotify in Hraise. cbn in Hraise. subst r.
    rewrite (bind_raise _ _ _ _ _ Hnotify). cbn. split; [reflexivity|].
    unfold task_state. now rewrite notified_tasks, working_state_tasks.
Qed.

Lemma send_task_notification_propagates_witness :
  let env := env_with (Some sender_down) in
  let request := request_sample "t1" "launch" (Some push_ok) in
  outcome (on_send_task env request empty_state)
  = Raise (PyExn "ConnectError" "connection refused") /\
  task_state (final_state (on_send_task env request empty_state)) "t1"
  = Some WORKING.
Proof.
  destruct (send_task_notification_propagates (env_with (Some sender_down))
              (working_task (env_with (Some sender_down))
                 (request_sample "t1" "launch" (Some push_ok)) empty_state)
              empty_state) as (_ & _ & _ & Hsend).
  apply (Hsend (request_sample "t1" "launch" (Some push_ok)) empty_state
           (PyExn "ConnectError" "connection refused")); reflexivity.
Defined.

(** * More of the code *)

(** ** Requests that fail validation *)

(** X1. A request that [_validate_request] refuses is answered with the
    error of the validation on both paths, and the state is left exactly
    as it was: no task, no registration, no queue, no call of the agent.
    The refusal is the incompatible-types error when no accepted output
    mode is supported, whatever the push-notification configuration, and
    InvalidParams when the modes fit and the configuration has an empty
    URL. *)
Theorem invalid_request_has_no_effect (env : Env) (request : SendTaskRequest)
    (s : State) :
  let compatible :=
    are_modalities_compatible (acceptedOutputModes (params request))
                              SUPPORTED_CONTENT_TYPES in
  (forall refusal,
     _validate_request request = Some refusal ->
     on_send_task env request s
     = (s, Ok (mkResponse (request_id request) None (response_error refusal))) /\
     on_send_task_subscribe env request s = (s, Ok (ErrorResponse refusal))) /\
  (compatible = false ->
   _validate_request request
   = Some (mkResponse (request_id request) None (Some ContentTypeNotSupportedError))) /\
  (compatible = true ->
   forall cfg,
     pushNotification (params request) = Some cfg -> url cfg = "" ->
     _validate_request request
     = Some (mkResponse (request_id request) None
               (Some (InvalidParamsError "Push notification URL is missing")))) /\
  (_validate_request request = None <->
   compatible = true /\
   forall cfg, pushNotification (params request) = Some cfg -> url cfg <> "").
Proof.
  intros compatible. subst compatible. unfold _validate_request.
  destruct (are_modalities_compatible (acceptedOutputModes (params request))
              SUPPORTED_CONTENT_TYPES) eqn:Hmodes; cbn [negb].
  - split; [|split; [discriminate|split]].
    + intros refusal Hrefusal. unfold on_send_task, on_send_task_subscribe,
        _validate_request. rewrite Hmodes. cbn [negb]. rewrite Hrefusal.
      split; reflexivity.
    + intros _ cfg Hcfg Hurl. now rewrite Hcfg, Hurl.
    + destruct (pushNotification (params request)) as [cfg|]; [|easy].
      destruct (String.eqb_spec (url cfg) "") as [Hurl|Hurl].
      * split; [discriminate|]. intros [_ Hfilled]. now destruct (Hfilled cfg).
      * split; [|reflexivity]. intros _. split; [reflexivity|].
        now intros cfg' [= <-].
  - split; [|split; [reflexivity|split; [discriminate|]]].
    + intros refusal [= <-]. unfold on_send_task, on_send_task_subscribe,
        _validate_request. rewrite Hmodes. split; reflexivity.
    + split; [discriminate|]. now intros [Hcompatible _].
Qed.

Lemma invalid_request_has_no_effect_witness :
  let request :=
    mkRequest "req-3"
      (mkTaskSendParams "t1" (mkMessage "user" [TextPart "launch"]) ["text"] None
         (Some (mkPushNotificationConfig "" None))) in
  on_send_task (env_with (Some sender_up)) request completed_once
  = (completed_once,
     Ok (mkResponse "req-3" None
           (Some (InvalidParamsError "Push notification URL is missing")))).
Proof.
  destruct (invalid_request_has_no_effect (env_with (Some sender_up))
              (mkRequest "req-3"
                 (mkTaskSendParams "t1" (mkMessage "user" [TextPart "launch"])
                    ["text"] None (Some (mkPushNotificationConfig "" None))))
              completed_once) as (Hrefused & _ & Hurl & _).
  apply (Hrefused _ (Hurl eq_refl _ eq_refl eq_refl)).
Defined.

(** ** Registering a push-notification configuration *)

(** X2. [set_push_notification_info] answers [True] exactly when a sender
    is configured and the URL passes its challenge.  When it answers
    [False] the state is untouched, so nothing is registered before the
    verification succeeds.  When it answers [True] the configuration is
    the one registered for the task id, replacing any earlier one, the
    configurations of the other ids and the tasks are as before, and
    [has_push_notification_info] and [get_push_notification_info] find it. *)
Theorem set_push_notification_info_registers_verified (env : Env)
    (task_id : string) (cfg : PushNotificationConfig) (s : State) :
  let r := set_push_notification_info env task_id cfg s in
  let verified :=
    match notification_sender_auth env with
    | Some sender => verify_push_notification_url sender (url cfg)
    | None => false
    end in
  outcome r = Ok verified /\
  (verified = false -> final_state r = s) /\
  (verified = true ->
   push_notification_infos (final_state r) !! task_id = Some cfg /\
   (forall other, other <> task_id ->
      push_notification_infos (final_state r) !! other
      = push_notification_infos s !! other) /\
   tasks (final_state r) = tasks s /\
   outbox (final_state r) = outbox s /\
   outcome (has_push_notification_info task_id (final_state r)) = Ok true /\
   outcome (get_push_notification_info task_id (final_state r)) = Ok cfg).
Proof.
  intros r verified. subst r verified. unfold set_push_notification_info.
  destruct (notification_sender_auth env) as [sender|]; [|now cbn].
  destruct (verify_push_notification_url sender (url cfg)); cbn; [|easy].
  unfold has_push_notification_info, get_push_notification_info. cbn.
  rewrite lookup_insert_eq. repeat split; try reflexivity; try discriminate.
  intros other Hother. now apply lookup_insert_ne.
Qed.

Lemma set_push_notification_info_registers_verified_witness :
  let r := set_push_notification_info (env_with (Some sender_up)) "t1" push_ok
             completed_once in
  push_notification_infos (final_state r) !! "t1" = Some push_ok /\
  final_state (set_push_notification_info (env_with (Some sender_up)) "t1"
                 push_unverified completed_once) = completed_once.
Proof.
  split.
  - destruct (set_push_notification_info_registers_verified
                (env_with (Some sender_up)) "t1" push_ok completed_once)
      as (_ & _ & Hverified).
    apply Hverified. reflexivity.
  - destruct (set_push_notification_info_registers_verified
                (env_with (Some sender_up)) "t1" push_unverified completed_once)
      as (_ & Hrejected & _).
    apply Hrejected. reflexivity.
Defined.

(** ** What every operation keeps *)

#[local] Instance keeps_keys_preorder : PreOrder keeps_keys.
Proof. split; unfold keeps_keys; [intros s|intros s1 s2 s3]; auto. Qed.

#[local] Instance grows_preorder : PreOrder grows.
Proof.
  split.
  - intros s task_id task Hfound. exists task, []. now rewrite app_nil_r.
  - intros s1 s2 s3 H12 H23 task_id task Hfound.
    destruct (H12 _ _ Hfound) as (task2 & added2 & Hfound2 & Hid2 & Harts2).
    destruct (H23 _ _ Hfound2) as (task3 & added3 & Hfound3 & Hid3 & Harts3).
    exists task3, (added2 ++ added3).
    split; [exact Hfound3|]. split; [congruence|].
    now rewrite Harts3, Harts2, <- app_assoc.
Qed.

#[local] Instance log_grows_preorder : PreOrder log_grows.
Proof.
  split.
  - intros s task_id. exists []. now rewrite app_nil_r.
  - intros s1 s2 s3 H12 H23 task_id.
    destruct (H12 task_id) as [added2 Hlog2].
    destruct (H23 task_id) as [added3 Hlog3].
    exists (added2 ++ added3). now rewrite Hlog3, Hlog2, <- app_assoc.
Qed.

#[local] Instance no_streaming_preorder : PreOrder no_streaming.
Proof.
  split.
  - now intros s.
  - intros s1 s2 s3 [Hq12 Hs12] [Hq23 Hs23]. split; congruence.
Qed.

#[local] Instance other_queues_preorder (task_id : string) :
  PreOrder (other_queues task_id).
Proof.
  split.
  - now intros s other _.
  - intros s1 s2 s3 H12 H23 other Hother.
    now rewrite (H23 other Hother), (H12 other Hother).
Qed.

#[local] Instance queues_kept_preorder : PreOrder queues_kept.
Proof.
  split.
  - intros s task_id. reflexivity.
  - intros s1 s2 s3 H12 H23 task_id. etransitivity; [apply H12|apply H23].
Qed.

Lemma keeps_keys_same_tasks (s s' : State) : tasks s' = tasks s -> keeps_keys s s'.
Proof. intros Hsame Hkeyed task_id task. rewrite Hsame. apply Hkeyed. Qed.

Lemma grows_same_tasks (s s' : State) : tasks s' = tasks s -> grows s s'.
Proof.
  intros Hsame task_id task Hfound. exists task, [].
  rewrite Hsame, app_nil_r. auto.
Qed.

Lemma log_grows_same_log (s s' : State) :
  task_messages s' = task_messages s -> log_grows s s'.
Proof.
  intros Hsame task_id. exists []. unfold messages_of.
  now rewrite Hsame, app_nil_r.
Qed.

Lemma other_queues_same (task_id : string) (s s' : State) :
  task_sse_subscribers s' = task_sse_subscribers s -> other_queues task_id s s'.
Proof. intros Hsame other _. now rewrite Hsame. Qed.

Lemma queues_kept_same (s s' : State) :
  task_sse_subscribers s' = task_sse_subscribers s -> queues_kept s s'.
Proof. intros Hsame task_id. unfold queues_of. now rewrite Hsame. Qed.

Lemma notified_scheduled (env : Env) (task : Task) (s : State) :
  scheduled (notified env task s) = scheduled s.
Proof. apply notified_same_store. Qed.

Lemma artifacts_of_updated (task : Task) (new_status : option TaskStatus)
    (new_artifacts : option (list Artifact)) :
  artifacts_of (updated task new_status new_artifacts)
  = artifacts_of task ++ match new_artifacts with Some l => l | None => [] end.
Proof.
  unfold updated, artifacts_of. cbn.
  destruct new_artifacts as [[|a l]|]; cbn; rewrite ?app_nil_r; try reflexivity.
  now destruct (artifacts task).
Qed.

Lemma upsert_task_keeps_keys (p : TaskSendParams) : steps keeps_keys (upsert_task p).
Proof.
  intros s Hkeyed task_id task. rewrite upsert_task_run. cbn.
  destruct (decide (params_id p = task_id)) as [<-|Hne].
  - rewrite lookup_insert_eq. intros [= <-]. unfold upserted.
    destruct (tasks s !! params_id p) as [old|] eqn:Hold; [|reflexivity].
    now apply Hkeyed.
  - rewrite lookup_insert_ne by assumption. apply Hkeyed.
Qed.

Lemma update_store_keeps_keys (task_id : string) (new_status : option TaskStatus)
    (new_artifacts : option (list Artifact)) :
  steps keeps_keys (update_store task_id new_status new_artifacts).
Proof.
  intros s Hkeyed id task.
  destruct (tasks s !! task_id) as [old|] eqn:Hold.
  - rewrite (update_store_found _ _ _ _ _ Hold). cbn.
    destruct (decide (task_id = id)) as [<-|Hne].
    + rewrite lookup_insert_eq. intros [= <-]. cbn. now apply Hkeyed.
    + rewrite lookup_insert_ne by assumption. apply Hkeyed.
  - rewrite update_store_missing by assumption. apply Hkeyed.
Qed.

Lemma upsert_task_grows (p : TaskSendParams) : steps grows (upsert_task p).
Proof.
  intros s task_id task Hfound. rewrite upsert_task_run. cbn.
  exists task, []. rewrite app_nil_r. split; [|auto].
  destruct (decide (params_id p = task_id)) as [<-|Hne].
  - rewrite lookup_insert_eq. unfold upserted. now rewrite Hfound.
  - now rewrite lookup_insert_ne.
Qed.

Lemma update_store_grows (task_id : string) (new_status : option TaskStatus)
    (new_artifacts : option (list Artifact)) :
  steps grows (update_store task_id new_status new_artifacts).
Proof.
  intros s id task Hfound.
  destruct (tasks s !! task_id) as [old|] eqn:Hold.
  - rewrite (update_store_found _ _ _ _ _ Hold). cbn.
    destruct (decide (task_id = id)) as [<-|Hne].
    + rewrite lookup_insert_eq. assert (old = task) as -> by congruence.
      eexists _, _. split; [reflexivity|]. split; [reflexivity|].
      apply artifacts_of_updated.
    + rewrite lookup_insert_ne by assumption.
      exists task, []. now rewrite app_nil_r.
  - rewrite update_store_missing by assumption. cbn.
    exists task, []. now rewrite app_nil_r.
Qed.

Lemma update_store_log_grows (task_id : string) (new_status : option TaskStatus)
    (new_artifacts : option (list Artifact)) :
  steps log_grows (update_store task_id new_status new_artifacts).
Proof.
  intros s id.
  destruct (tasks s !! task_id) as [old|] eqn:Hold.
  - rewrite (update_store_found _ _ _ _ _ Hold). unfold messages_of. cbn.
    destruct new_status as [[st [m|]]|]; try (exists []; now rewrite app_nil_r).
    unfold append_message. cbn [message].
    destruct (decide (task_id = id)) as [<-|Hne].
    + rewrite lookup_insert_eq. exists [m].
      now destruct (task_messages s !! task_id).
    + rewrite lookup_insert_ne by assumption. exists []. now rewrite app_nil_r.
  - rewrite update_store_missing by assumption. exists []. now rewrite app_nil_r.
Qed.

Lemma update_store_no_streaming (task_id : string) (new_status : option TaskStatus)
    (new_artifacts : option (list Artifact)) :
  steps no_streaming (update_store task_id new_status new_artifacts).
Proof.
  intros s. unfold update_store. now destruct (tasks s !! task_id).
Qed.

Lemma enqueue_events_for_sse_other_queues (task_id : string) (ev : Event) :
  steps (other_queues task_id) (enqueue_events_for_sse task_id ev).
Proof. intros s other Hother. cbn. now apply lookup_alter_ne. Qed.

Lemma enqueue_events_for_sse_queues_kept (task_id : string) (ev : Event) :
  steps queues_kept (enqueue_events_for_sse task_id ev).
Proof.
  intros s id. unfold queues_of. cbn.
  destruct (decide (task_id = id)) as [<-|Hne].
  - rewrite lookup_alter_eq. destruct (task_sse_subscribers s !! task_id); cbn;
      [|reflexivity]. now rewrite List.length_map.
  - now rewrite lookup_alter_ne.
Qed.

Lemma setup_sse_consumer_queues_kept (task_id : string) (resume : bool) :
  steps queues_kept (setup_sse_consumer task_id resume).
Proof.
  intros s id. unfold queues_of. cbn.
  destruct (decide (task_id = id)) as [<-|Hne].
  - rewrite lookup_insert_eq. rewrite length_app. cbn. lia.
  - now rewrite lookup_insert_ne.
Qed.

Lemma update_store_same_queues (task_id : string) (new_status : option TaskStatus)
    (new_artifacts : option (list Artifact)) (s : State) :
  task_sse_subscribers (final_state (update_store task_id new_status new_artifacts s))
  = task_sse_subscribers s.
Proof. unfold update_store. now destruct (tasks s !! task_id). Qed.

#[local] Hint Resolve upsert_task_keeps_keys update_store_keeps_keys
  upsert_task_grows update_store_grows update_store_log_grows
  update_store_no_streaming enqueue_events_for_sse_other_queues
  enqueue_events_for_sse_queues_kept setup_sse_consumer_queues_kept : steps.

(** A step that leaves the part of the state a relation reads as it was. *)
Ltac same_part :=
  intros ?s;
  first
    [ apply keeps_keys_same_tasks
    | apply grows_same_tasks
    | apply log_grows_same_log
    | apply other_queues_same
    | apply queues_kept_same
    | split ];
  first
    [ reflexivity
    | apply notified_tasks
    | apply notified_task_messages
    | apply notified_subscribers
    | apply notified_scheduled
    | apply registered_tasks
    | apply registered_task_messages
    | apply registered_subscribers
    | apply registered_scheduled
    | apply update_store_same_queues ].

#[local] Hint Extern 5 (steps _ _) => solve [same_part] : steps.

Lemma upsert_task_log_grows (p : TaskSendParams) : steps log_grows (upsert_task p).
Proof. intros s. rewrite upsert_task_run. now apply log_grows_same_log. Qed.

Lemma upsert_task_no_streaming (p : TaskSendParams) :
  steps no_streaming (upsert_task p).
Proof. intros s. rewrite upsert_task_run. now split. Qed.

Lemma upsert_task_other_queues (task_id : string) (p : TaskSendParams) :
  steps (other_queues task_id) (upsert_task p).
Proof. intros s. rewrite upsert_task_run. now apply other_queues_same. Qed.

Lemma upsert_task_queues_kept (p : TaskSendParams) :
  steps queues_kept (upsert_task p).
Proof. intros s. rewrite upsert_task_run. now apply queues_kept_same. Qed.

#[local] Hint Resolve upsert_task_log_grows upsert_task_no_streaming
  upsert_task_other_queues upsert_task_queues_kept : steps.

#[local] Instance same_schedule_preorder : PreOrder same_schedule.
Proof.
  split; unfold same_schedule; [intros s|intros s1 s2 s3]; congruence.
Qed.

Lemma update_store_same_schedule (task_id : string) (new_status : option TaskStatus)
    (new_artifacts : option (list Artifact)) :
  steps same_schedule (update_store task_id new_status new_artifacts).
Proof. intros s. unfold same_schedule, update_store. now destruct (tasks s !! task_id). Qed.

Lemma notify_same_schedule (env : Env) (task : Task) :
  steps same_schedule (notify env task).
Proof. intros s. apply notified_scheduled. Qed.

#[local] Hint Resolve update_store_same_schedule notify_same_schedule : steps.
#[local] Hint Extern 4 (steps same_schedule _) =>
  solve [intros ?s; reflexivity] : steps.

Lemma run_scheduled_steps (R : State -> State -> Prop) `{!PreOrder R} (env : Env) :
  (forall request, steps R (_run_streaming_content_creation env request)) ->
  (forall s rest, R s (set_scheduled (fun _ => rest) s)) ->
  forall s, R s (run_scheduled env s).
Proof.
  intros Hrun Hpop s. unfold run_scheduled.
  destruct (scheduled s) as [|request rest]; [reflexivity|].
  etransitivity; [apply (Hpop s rest)|apply Hrun].
Qed.

Lemma on_send_task_grows (env : Env) (request : SendTaskRequest) :
  steps grows (on_send_task env request).
Proof. unfold on_send_task, on_send_task_try, on_send_task_except. steps_tac. Qed.

Lemma on_send_task_subscribe_grows (env : Env) (request : SendTaskRequest) :
  steps grows (on_send_task_subscribe env request).
Proof. unfold on_send_task_subscribe. steps_tac. Qed.

Lemma _run_streaming_content_creation_grows (env : Env) (request : SendTaskRequest) :
  steps grows (_run_streaming_content_creation env request).
Proof.
  unfold _run_streaming_content_creation, _run_streaming_try, _run_streaming_except.
  steps_tac.
Qed.

Lemma on_resubscribe_to_task_grows (request : TaskIdRequest) :
  steps grows (on_resubscribe_to_task request).
Proof. unfold on_resubscribe_to_task. steps_tac. Qed.

(** X3. No operation of the manager removes a task, changes the id of a
    task, or drops or reorders its artifacts: after [update_store],
    [on_send_task], [on_send_task_subscribe], [on_resubscribe_to_task], a
    scheduled streaming run, or a turn of the event loop, every task that
    was stored is still stored under the same key, with the same id, and
    its artifact list is the old list followed by what was appended. *)
Theorem tasks_and_artifacts_only_grow (env : Env) :
  (forall task_id new_status new_artifacts,
     steps grows (update_store task_id new_status new_artifacts)) /\
  (forall request, steps grows (on_send_task env request)) /\
  (forall request, steps grows (on_send_task_subscribe env request)) /\
  (forall request, steps grows (on_resubscribe_to_task request)) /\
  (forall request, steps grows (_run_streaming_content_creation env request)) /\
  (forall s, grows s (run_scheduled env s)).
Proof.
  repeat apply conj.
  - apply update_store_grows.
  - apply on_send_task_grows.
  - apply on_send_task_subscribe_grows.
  - apply on_resubscribe_to_task_grows.
  - apply _run_streaming_content_creation_grows.
  - apply run_scheduled_steps; [typeclasses eauto| |].
    + apply _run_streaming_content_creation_grows.
    + intros s rest. now apply grows_same_tasks.
Qed.

Lemma tasks_and_artifacts_only_grow_witness :
  let s2 := final_state (on_send_task env_plain (request_sample "t1" "fail" None)
                           completed_once) in
  exists task' added,
    tasks s2 !! "t1" = Some task' /\
    tid task' = "t1" /\
    artifacts_of task'
    = [text_artifact env_plain content_sample; image_artifact env_plain image_sample]
      ++ added.
Proof.
  destruct (tasks_and_artifacts_only_grow env_plain) as (_ & Hsend & _).
  apply (Hsend (request_sample "t1" "fail" None) completed_once "t1"
           (mkTask "t1"
              (completed_status
                 "Created content package with posts for X, Facebook, Instagram, LinkedIn. Generated matching image based on content theme.")
              (Some [text_artifact env_plain content_sample;
                     image_artifact env_plain image_sample])
              [])).
  vm_compute. reflexivity.
Defined.

Lemma on_send_task_log_grows (env : Env) (request : SendTaskRequest) :
  steps log_grows (on_send_task env request).
Proof. unfold on_send_task, on_send_task_try, on_send_task_except. steps_tac. Qed.

Lemma _run_streaming_content_creation_log_grows (env : Env)
    (request : SendTaskRequest) :
  steps log_grows (_run_streaming_content_creation env request).
Proof.
  unfold _run_streaming_content_creation, _run_streaming_try, _run_streaming_except.
  steps_tac.
Qed.

(** X4. The message history is append-only: after any operation the
    history of every task id is the history it had followed by the
    messages logged meanwhile; [update_store] logs the message of the
    status it is given, and nothing when the status has no message or no
    status is given. *)
Theorem message_history_is_append_only (env : Env) :
  (forall task_id new_status new_artifacts,
     steps log_grows (update_store task_id new_status new_artifacts)) /\
  (forall s task_id task new_status new_artifacts,
     tasks s !! task_id = Some task ->
     messages_of (final_state (update_store task_id new_status new_artifacts s))
                 task_id
     = messages_of s task_id
       ++ match new_status with
          | Some st => match message st with Some m => [m] | None => [] end
          | None => []
          end) /\
  (forall request, steps log_grows (on_send_task env request)) /\
  (forall request, steps log_grows (on_send_task_subscribe env request)) /\
  (forall request, steps log_grows (on_resubscribe_to_task request)) /\
  (forall request, steps log_grows (_run_streaming_content_creation env request)) /\
  (forall s, log_grows s (run_scheduled env s)).
Proof.
  repeat apply conj.
  - apply update_store_log_grows.
  - intros s task_id task new_status new_artifacts Hfound.
    rewrite (update_store_found _ _ _ _ _ Hfound). unfold messages_of. cbn.
    destruct new_status as [[st [m|]]|]; cbn [message]; rewrite ?app_nil_r;
      try reflexivity.
    unfold append_message. rewrite lookup_insert_eq.
    now destruct (task_messages s !! task_id).
  - apply on_send_task_log_grows.
  - intros request. unfold on_send_task_subscribe. steps_tac.
  - intros request. unfold on_resubscribe_to_task. steps_tac.
  - apply _run_streaming_content_creation_log_grows.
  - apply run_scheduled_steps; [typeclasses eauto| |].
    + apply _run_streaming_content_creation_log_grows.
    + intros s rest. now apply log_grows_same_log.
Qed.

Lemma message_history_is_append_only_witness :
  messages_of
    (final_state (update_store "t1" (Some (failed_status (ValueError "boom"))) None
                    completed_once)) "t1"
  = messages_of completed_once "t1"
    ++ [agent_message "Error creating content: boom"].
Proof.
  destruct (message_history_is_append_only env_plain) as (_ & Hupdate & _).
  eapply eq_trans; [eapply Hupdate; vm_compute; reflexivity|reflexivity].
Defined.

Lemma on_send_task_no_streaming (env : Env) (request : SendTaskRequest) :
  steps no_streaming (on_send_task env request).
Proof. unfold on_send_task, on_send_task_try, on_send_task_except. steps_tac. Qed.

Lemma _run_streaming_content_creation_other_queues (env : Env)
    (request : SendTaskRequest) :
  steps (other_queues (params_id (params request)))
        (_run_streaming_content_creation env request).
Proof.
  unfold _run_streaming_content_creation, _run_streaming_try, _run_streaming_except.
  steps_tac.
Qed.

Lemma _run_streaming_content_creation_same_schedule (env : Env)
    (request : SendTaskRequest) :
  steps same_schedule (_run_streaming_content_creation env request).
Proof.
  unfold _run_streaming_content_creation, _run_streaming_try, _run_streaming_except.
  steps_tac.
Qed.

(** X5. The two paths keep to their own channel.  [on_send_task], whatever
    the agent and the sender do, enqueues no event, attaches no queue and
    schedules no coroutine.  A streaming run writes only to the queues of
    the task of its request, the queues of every other task are as
    before, and it schedules nothing. *)
Theorem paths_keep_to_their_channel (env : Env) (request : SendTaskRequest)
    (s : State) :
  task_sse_subscribers (final_state (on_send_task env request s))
  = task_sse_subscribers s /\
  scheduled (final_state (on_send_task env request s)) = scheduled s /\
  (forall other,
     other <> params_id (params request) ->
     queues_of (final_state (_run_streaming_content_creation env request s)) other
     = queues_of s other) /\
  scheduled (final_state (_run_streaming_content_creation env request s))
  = scheduled s.
Proof.
  destruct (on_send_task_no_streaming env request s) as [Hqueues Hscheduled].
  repeat apply conj; try assumption.
  - intros other Hother. unfold queues_of.
    now rewrite (_run_streaming_content_creation_other_queues env request s other).
  - apply _run_streaming_content_creation_same_schedule.
Qed.

Lemma paths_keep_to_their_channel_witness :
  let request := request_sample "t1" "launch" None in
  let s1 :=
    final_state (on_send_task_subscribe env_plain (request_sample "t2" "launch" None)
                   completed_once) in
  queues_of (final_state (_run_streaming_content_creation env_plain request s1)) "t2"
  = [[]].
Proof.
  destruct (paths_keep_to_their_channel env_plain (request_sample "t1" "launch" None)
              (final_state
                 (on_send_task_subscribe env_plain
                    (request_sample "t2" "launch" None) completed_once)))
    as (_ & _ & Hother & _).
  eapply eq_trans; [apply Hother; discriminate|].
  vm_compute. reflexivity.
Defined.

(** ** Reachable states *)

Lemma on_send_task_keeps_keys (env : Env) (request : SendTaskRequest) :
  steps keeps_keys (on_send_task env request).
Proof. unfold on_send_task, on_send_task_try, on_send_task_except. steps_tac. Qed.

Lemma on_send_task_subscribe_keeps_keys (env : Env) (request : SendTaskRequest) :
  steps keeps_keys (on_send_task_subscribe env request).
Proof. unfold on_send_task_subscribe. steps_tac. Qed.

Lemma _run_streaming_content_creation_keeps_keys (env : Env)
    (request : SendTaskRequest) :
  steps keeps_keys (_run_streaming_content_creation env request).
Proof.
  unfold _run_streaming_content_creation, _run_streaming_try, _run_streaming_except.
  steps_tac.
Qed.

Lemma on_resubscribe_to_task_keeps_keys (request : TaskIdRequest) :
  steps keeps_keys (on_resubscribe_to_task request).
Proof. unfold on_resubscribe_to_task. steps_tac. Qed.

Lemma reachable_well_keyed (env : Env) (s : State) :
  reachable env s -> well_keyed s.
Proof.
  induction 1 as [|s request _ IH|s request _ IH|s request _ IH|s _ IH].
  - intros task_id task. cbn. now rewrite lookup_empty.
  - now apply on_send_task_keeps_keys.
  - now apply on_send_task_subscribe_keeps_keys.
  - now apply on_resubscribe_to_task_keeps_keys.
  - revert IH. apply (run_scheduled_steps keeps_keys env).
    + apply _run_streaming_content_creation_keeps_keys.
    + intros s0 rest. now apply keeps_keys_same_tasks.
Qed.

(** X6. In every state the manager can reach from the empty store through
    its handlers and the runs of the coroutines it schedules, each task is
    stored under its own id: the key of an entry of [tasks] is the [id]
    of the task, so the task handed to [send_task_notification] is looked
    up under the key it is stored at. *)
Theorem reachable_store_is_well_keyed (env : Env) (s : State) (task_id : string)
    (task : Task) :
  reachable env s ->
  tasks s !! task_id = Some task ->
  tid task = task_id.
Proof. intros Hreachable. exact (reachable_well_keyed env s Hreachable task_id task). Qed.

Lemma reachable_store_is_well_keyed_witness :
  reachable env_plain completed_once /\
  option_map tid (tasks completed_once !! "t1") = Some "t1".
Proof.
  assert (Hreachable : reachable env_plain completed_once)
    by (apply reachable_send, reachable_start).
  split; [exact Hreachable|].
  destruct (tasks completed_once !! "t1") as [task|] eqn:Hfound;
    [|vm_compute in Hfound; discriminate].
  cbn. f_equal.
  exact (reachable_store_is_well_keyed env_plain completed_once "t1" task
           Hreachable Hfound).
Defined.

(** ** The stream and the store *)

Lemma artifacts_of_streamed_task (env : Env) (task : Task) (content_data : json)
    (image_data : option Imagedata) :
  artifacts_of (streamed_task env task content_data image_data)
  = artifacts_of task ++ make_artifacts env content_data image_data.
Proof.
  unfold streamed_task, make_artifacts.
  destruct image_data as [image|]; [destruct (has_error image)|];
    rewrite !artifacts_of_updated; cbn [app]; rewrite ?app_nil_r, <- ?app_assoc;
    reflexivity.
Qed.

(** Every streaming run on a stored task with a text query, when no
    delivery raises: what it enqueues, what it stores, what it asks. *)
Lemma streaming_run_outcomes (env : Env) (request : SendTaskRequest) (s : State)
    (task : Task) (query : string) :
  quiet env ->
  tasks s !! params_id (params request) = Some task ->
  _get_user_query (params request) = Ok query ->
  exists produced st,
    let task_id := params_id (params request) in
    let r := _run_streaming_content_creation env request s in
    outcome r = Ok tt /\
    queues_of (final_state r) task_id
    = List.map
        (fun queue =>
           queue
           ++ (progress_events task_id
               ++ List.map (TaskArtifactUpdateEvent task_id) produced)
           ++ [TaskStatusUpdateEvent task_id st true])
        (queues_of s task_id) /\
    task_status (final_state r) task_id = Some st /\
    task_artifacts (final_state r) task_id = artifacts_of task ++ produced /\
    agent_calls (final_state r) = agent_calls s ++ [query] /\
    (state st = COMPLETED \/ state st = ERROR).
Proof.
  intros Hquiet Hfound Hquery.
  destruct (agent_invoke env query) as [[content_data image_data]|e] eqn:Hagent.
  - destruct (make_summary env content_data image_data) as [summary|e]
      eqn:Hsummary.
    + destruct (_run_streaming_content_creation_ok env request query task _ _ _ s
                  Hquery
                  (_run_streaming_try_completes env request query content_data
                     image_data summary task s Hquiet Hagent Hsummary) Hfound)
        as (Hr & Htask & Hqueues & Hcalls).
      exists (make_artifacts env content_data image_data),
        (completed_status summary). cbv zeta.
      rewrite (task_status_lookup _ _ _ Htask), (task_artifacts_lookup _ _ _ Htask).
      rewrite artifacts_of_updated, artifacts_of_streamed_task, app_nil_r.
      repeat apply conj; try assumption; try reflexivity. now left.
    + destruct (_run_streaming_content_creation_raise env request query task _ _ _
                  e s Hquiet Hquery
                  (_run_streaming_try_summary_raises env request query
                     content_data image_data e task s Hquiet Hagent Hsummary)
                  Hfound)
        as (Hr & Htask & Hqueues & Hcalls).
      exists (make_artifacts env content_data image_data), (error_status e).
      cbv zeta.
      rewrite (task_status_lookup _ _ _ Htask), (task_artifacts_lookup _ _ _ Htask).
      rewrite artifacts_of_updated, artifacts_of_streamed_task, app_nil_r.
      repeat apply conj; try assumption; try reflexivity. now right.
  - destruct (_run_streaming_content_creation_raise env request query task _ _ _
                e s Hquiet Hquery
                (_run_streaming_try_agent_raises env request query e task s
                   Hquiet Hagent) Hfound)
      as (Hr & Htask & Hqueues & Hcalls).
    exists [], (error_status e). cbv zeta.
    rewrite (task_status_lookup _ _ _ Htask), (task_artifacts_lookup _ _ _ Htask).
    rewrite !artifacts_of_updated, !app_nil_r.
    repeat apply conj; try assumption; try reflexivity. now right.
Qed.



(** ** One call of the agent *)



(** ** Scheduled coroutines *)

Lemma on_send_task_queues_kept (env : Env) (request : SendTaskRequest) :
  steps queues_kept (on_send_task env request).
Proof. unfold on_send_task, on_send_task_try, on_send_task_except. steps_tac. Qed.

Lemma on_send_task_subscribe_queues_kept (env : Env) (request : SendTaskRequest) :
  steps queues_kept (on_send_task_subscribe env request).
Proof. unfold on_send_task_subscribe. steps_tac. Qed.

Lemma on_resubscribe_to_task_queues_kept (request : TaskIdRequest) :
  steps queues_kept (on_resubscribe_to_task request).
Proof. unfold on_resubscribe_to_task. steps_tac. Qed.

Lemma _run_streaming_content_creation_queues_kept (env : Env)
    (request : SendTaskRequest) :
  steps queues_kept (_run_streaming_content_creation env request).
Proof.
  unfold _run_streaming_content_creation, _run_streaming_try, _run_streaming_except.
  steps_tac.
Qed.

Lemma on_resubscribe_to_task_same_schedule (request : TaskIdRequest) :
  steps same_schedule (on_resubscribe_to_task request).
Proof. unfold on_resubscribe_to_task. steps_tac. Qed.

Lemma scheduled_ready_kept (s s' : State) :
  grows s s' -> queues_kept s s' ->
  (forall request, In request (scheduled s') -> In request (scheduled s)) ->
  scheduled_ready s -> scheduled_ready s'.
Proof.
  intros Hgrows Hkept Hsub Hready request Hin.
  destruct (Hready request (Hsub request Hin)) as [[task Hfound] Hqueue].
  split.
  - destruct (Hgrows _ _ Hfound) as (task' & added & Hfound' & _). eauto.
  - specialize (Hkept (params_id (params request))).
    destruct (queues_of s (params_id (params request))); [congruence|].
    destruct (queues_of s' (params_id (params request))); [cbn in Hkept; lia|].
    discriminate.
Qed.

(** A subscribe call schedules its own request, and only when it has
    stored the task and attached a queue. *)
Lemma on_send_task_subscribe_schedule (env : Env) (request : SendTaskRequest)
    (s : State) :
  let s' := final_state (on_send_task_subscribe env request s) in
  scheduled s' = scheduled s \/
  (scheduled s' = scheduled s ++ [request] /\
   (exists task, tasks s' !! params_id (params request) = Some task) /\
   queues_of s' (params_id (params request)) <> []).
Proof.
  intros s'. subst s'.
  destruct (accepted env request) eqn:Haccepted.
  - right.
    destruct (on_send_task_subscribe_accepts env request s Haccepted)
      as (_ & Htask & Hqueues & Hscheduled).
    split; [exact Hscheduled|]. split; [eauto|]. rewrite Hqueues.
    now destruct (queues_of s (params_id (params request))).
  - left. unfold accepted in Haccepted. unfold on_send_task_subscribe, try_except.
    destruct (_validate_request request) as [refusal|]; [reflexivity|].
    rewrite (bind_run _ _ _ _ _ (upsert_task_run _ _)).
    rewrite (bind_run _ _ _ _ _ (register_push_notification_run _ _ _)).
    rewrite Haccepted. cbn. now rewrite registered_scheduled.
Qed.

Lemma reachable_scheduled_ready (env : Env) (s : State) :
  reachable env s -> scheduled_ready s.
Proof.
  induction 1 as [|s request _ IH|s request _ IH|s request _ IH|s _ IH].
  - intros request [].
  - revert IH. apply scheduled_ready_kept.
    + apply on_send_task_grows.
    + apply on_send_task_queues_kept.
    + intros r. now rewrite (proj2 (on_send_task_no_streaming env request s)).
  - pose proof (on_send_task_subscribe_grows env request s) as Hgrows.
    pose proof (on_send_task_subscribe_queues_kept env request s) as Hkept.
    destruct (on_send_task_subscribe_schedule env request s)
      as [Hsame|(Hadded & Htask & Hqueue)].
    + revert IH. apply scheduled_ready_kept; try assumption.
      intros r. now rewrite Hsame.
    + intros r Hin. rewrite Hadded in Hin. apply in_app_or in Hin.
      destruct Hin as [Hold|[<-|[]]]; [|now split].
      destruct (IH r Hold) as [[task Hfound] Hq]. split.
      * destruct (Hgrows _ _ Hfound) as (task' & added & Hfound' & _). eauto.
      * specialize (Hkept (params_id (params r))).
        destruct (queues_of s (params_id (params r))); [congruence|].
        destruct (queues_of _ (params_id (params r))); [cbn in Hkept; lia|].
        discriminate.
  - revert IH. apply scheduled_ready_kept.
    + apply on_resubscribe_to_task_grows.
    + apply on_resubscribe_to_task_queues_kept.
    + intros r. now rewrite (on_resubscribe_to_task_same_schedule request s).
  - unfold run_scheduled.
    destruct (scheduled s) as [|request rest] eqn:Hscheduled; [exact IH|].
    apply (scheduled_ready_kept (set_scheduled (fun _ => rest) s)).
    + apply _run_streaming_content_creation_grows.
    + apply _run_streaming_content_creation_queues_kept.
    + intros r. now rewrite (_run_streaming_content_creation_same_schedule env
                               request (set_scheduled (fun _ => rest) s)).
    + intros r Hin. apply (IH r). rewrite Hscheduled. now right.
Qed.



(** ** The image generator, part by part *)

(** X10. The first inline part of the model response decides the result
    of [generate_image].  With a non-empty prompt and an API key, when the
    parts before [p] carry no inline data and [p] does, the call returns
    the image built from [p] (fresh id, its bytes, its mime type, no
    error) if [p] has both data and mime type, and raises otherwise: the
    loop returns at the first inline part, so a complete image in a later
    part is never used. *)
Theorem generate_image_first_inline_part_decides (env : ImageEnv) (prompt key : string)
    (before after : list ResponsePart) (p : ResponsePart)
    (data : option (list Byte.byte)) (mime : option string) :
  prompt <> "" ->
  GOOGLE_API_KEY env = Some key -> key <> "" ->
  generate_content env prompt = Ok (before ++ p :: after) ->
  Forall (fun q => inline_data q = None) before ->
  inline_data p = Some (data, mime) ->
  generate_image env prompt
  = match data, mime with
    | Some d, Some m => Ok (mkImagedata (uuid4_hex env) d m None)
    | _, _ => Raise (ValidationError "validation error for Imagedata")
    end.
Proof.
  intros Hprompt Hkey Hkey_set Hanswer Hbefore Hinline.
  assert (Hfirst : first_inline_image (uuid4_hex env) (before ++ p :: after)
                   = Some (Imagedata_init (Some (uuid4_hex env)) data mime None)).
  { clear Hanswer. induction Hbefore as [|q before Hq _ IH]; cbn.
    - now rewrite Hinline.
    - now rewrite Hq. }
  unfold generate_image, generate_image_body.
  destruct (String.eqb_spec prompt "") as [->|_]; [contradiction|].
  rewrite Hkey, Hanswer. cbn. rewrite Hfirst.
  destruct key as [|c key]; [contradiction|].
  now destruct data, mime.
Qed.

Lemma generate_image_first_inline_part_decides_witness :
  generate_image
    (image_env_sample (Some "k")
       (Ok [mkResponsePart None;
            mkResponsePart (Some (Some [Byte.x89], None));
            mkResponsePart (Some (Some [Byte.x89], Some "image/png"))]))
    "a desk"
  = Raise (ValidationError "validation error for Imagedata").
Proof.
  apply (generate_image_first_inline_part_decides
           (image_env_sample (Some "k")
              (Ok [mkResponsePart None;
                   mkResponsePart (Some (Some [Byte.x89], None));
                   mkResponsePart (Some (Some [Byte.x89], Some "image/png"))]))
           "a desk" "k"
           [mkResponsePart None]
           [mkResponsePart (Some (Some [Byte.x89], Some "image/png"))]
           (mkResponsePart (Some (Some [Byte.x89], None)))
           (Some [Byte.x89]) None).
  - discriminate.
  - reflexivity.
  - discriminate.
  - reflexivity.
  - repeat constructor.
  - reflexivity.
Defined.

(** ** The agent and the manager together *)

Lemma generate_image_of_str (aenv : AgentEnv) (prompt : string) :
  generate_image_of aenv (JStr prompt) = generate_image (image_env aenv) prompt.
Proof.
  unfold generate_image_of, generate_image, generate_image_body. cbn.
  now destruct (String.eqb prompt "").
Qed.

Lemma generate_image_of_ok (aenv : AgentEnv) (prompt : json) (img : Imagedata) :
  generate_image_of aenv prompt = Ok img ->
  py_truthy prompt = true /\ error img = None /\ image_id img = fresh_uuid aenv.
Proof.
  unfold generate_image_of.
  destruct (py_truthy prompt); [|discriminate]. cbn.
  destruct (api_key aenv) as [[|c key]|]; try discriminate.
  destruct (generate_content_of aenv prompt) as [ps|e]; [|discriminate]. cbn.
  destruct (first_inline_image (fresh_uuid aenv) ps) as [[img'|e]|] eqn:Hfirst;
    try discriminate.
  intros [= ->].
  apply first_inline_image_ok in Hfirst as (p & data & mime & _ & _ & ->).
  auto.
Qed.

Lemma ContentCreator_invoke_ok (aenv : AgentEnv) (query : string)
    (content_data : json) (image : Imagedata) :
  ContentCreator_invoke aenv query = Ok (content_data, image) ->
  exists prompt,
    py_getitem content_data "image_prompt" = Ok prompt /\
    generate_image_of aenv prompt = Ok image.
Proof.
  unfold ContentCreator_invoke.
  destruct (query2inputs aenv query) as [inputs|]; [|discriminate]. cbn.
  destruct (crew_kickoff aenv inputs) as [raw|]; [|discriminate]. cbn.
  destruct (json_loads aenv raw) as [content|]; [|discriminate]. cbn.
  destruct (py_getitem content "image_prompt") as [prompt|] eqn:Hprompt;
    [|discriminate]. cbn.
  destruct (py_slice prompt); [|discriminate]. cbn.
  destruct (generate_image_of aenv prompt) as [img|] eqn:Himage; [|discriminate].
  cbn. intros [= <- <-]. eauto.
Qed.

(** X11. The agent never hands the manager a failed image.  Whatever
    [ContentCreator.invoke] returns carries the content record, in which
    ["image_prompt"] is a non-empty string or list, and an image with no
    error and the fresh id.  So with this agent the manager always builds
    two artifacts, the text and the image, and the summary always ends
    with the sentence about the generated image; its branch for a failed
    image is never taken. *)
Theorem invoke_never_returns_failed_image (aenv : AgentEnv) (env : Env)
    (query : string) (content_data : json) (image_data : option Imagedata) :
  agent_of aenv query = Ok (content_data, image_data) ->
  exists prompt image,
    image_data = Some image /\
    py_getitem content_data "image_prompt" = Ok prompt /\
    py_truthy prompt = true /\
    (py_type_name prompt = "str" \/ py_type_name prompt = "list") /\
    error image = None /\
    image_id image = fresh_uuid aenv /\
    make_artifacts env content_data image_data
    = [text_artifact env content_data; image_artifact env image] /\
    image_clause image_data = " Generated matching image based on content theme.".
Proof.
  unfold agent_of.
  destruct (ContentCreator_invoke aenv query) as [[content image]|] eqn:Hinvoke;
    [|discriminate].
  cbn. intros [= <- <-].
  pose proof Hinvoke as Hslice.
  apply ContentCreator_invoke_ok in Hinvoke as (prompt & Hprompt & Himage).
  apply generate_image_of_ok in Himage as (Htruthy & Herror & Hid).
  exists prompt, image.
  assert (Hkind : py_type_name prompt = "str" \/ py_type_name prompt = "list").
  { unfold ContentCreator_invoke in Hslice.
    destruct (query2inputs aenv query) as [inputs|]; [|discriminate]. cbn in Hslice.
    destruct (crew_kickoff aenv inputs) as [raw|]; [|discriminate]. cbn in Hslice.
    destruct (json_loads aenv raw) as [content'|]; [|discriminate]. cbn in Hslice.
    destruct (py_getitem content' "image_prompt") as [prompt'|] eqn:Hprompt';
      [|discriminate]. cbn in Hslice.
    destruct (py_slice prompt') eqn:Hsliced; [|discriminate]. cbn in Hslice.
    destruct (generate_image_of aenv prompt'); [|discriminate].
    cbn in Hslice. injection Hslice as -> _.
    rewrite Hprompt in Hprompt'. injection Hprompt' as <-.
    destruct prompt; try discriminate; auto. }
  unfold make_artifacts, image_clause, has_error. rewrite Herror. cbn.
  repeat apply conj; auto.
Qed.

Lemma invoke_never_returns_failed_image_witness :
  exists prompt image,
    Some image_sample = Some image /\
    py_getitem content_sample "image_prompt" = Ok prompt /\
    py_truthy prompt = true /\
    (py_type_name prompt = "str" \/ py_type_name prompt = "list") /\
    error image = None /\
    image_id image = "0f3a" /\
    make_artifacts env_plain content_sample (Some image_sample)
    = [text_artifact env_plain content_sample; image_artifact env_plain image] /\
    image_clause (Some image_sample)
    = " Generated matching image based on content theme.".
Proof.
  apply (invoke_never_returns_failed_image (agent_env_sample (Some "k")) env_plain
           "launch" content_sample (Some image_sample)).
  vm_compute. reflexivity.
Defined.



(** ** The two paths side by side *)

Lemma working_task_found (env : Env) (request : SendTaskRequest) (s : State)
    (task : Task) :
  tasks s !! params_id (params request) = Some task ->
  working_task env request s = updated task (Some (mkTaskStatus WORKING None)) None.
Proof.
  intros Hfound. unfold working_task, upserted.
  now rewrite registered_tasks, Hfound.
Qed.



(** * Event order, failures and terminal states in general *)

(** ** The order of the events of a streaming run *)

Lemma appended_nil (task_id : string) (s s' : State) :
  task_sse_subscribers s' = task_sse_subscribers s -> appended task_id [] s s'.
Proof.
  intros Hsame. unfold appended, queues_of. rewrite Hsame.
  symmetry. apply queues_append_nil.
Qed.

Lemma appended_app (task_id : string) (e1 e2 : list Event) (s1 s2 s3 : State) :
  appended task_id e1 s1 s2 -> appended task_id e2 s2 s3 ->
  appended task_id (e1 ++ e2) s1 s3.
Proof.
  unfold appended. intros H12 H23. rewrite H23, H12. apply queues_append_append.
Qed.

Lemma appended_enqueue (task_id : string) (ev : Event) (s : State) :
  appended task_id [ev] s (final_state (enqueue_events_for_sse task_id ev s)).
Proof.
  unfold appended, queues_of. cbn. rewrite lookup_alter_eq.
  now destruct (task_sse_subscribers s !! task_id).
Qed.

#[local] Instance appends_nonfinal_preorder (task_id : string) :
  PreOrder (appends_nonfinal task_id).
Proof.
  split.
  - intros s. exists []. split; [now apply appended_nil|constructor].
  - intros s1 s2 s3 (e1 & H12 & Hn1) (e2 & H23 & Hn2). exists (e1 ++ e2).
    split; [eapply appended_app; eassumption|]. apply Forall_app. now split.
Qed.

Lemma appends_nonfinal_same (task_id : string) (s s' : State) :
  task_sse_subscribers s' = task_sse_subscribers s -> appends_nonfinal task_id s s'.
Proof. intros Hsame. exists []. split; [now apply appended_nil|constructor]. Qed.

Lemma update_store_appends_nonfinal (task_id id : string)
    (new_status : option TaskStatus) (new_artifacts : option (list Artifact)) :
  steps (appends_nonfinal task_id) (update_store id new_status new_artifacts).
Proof. intros s. apply appends_nonfinal_same, update_store_same_queues. Qed.

Lemma notify_appends_nonfinal (env : Env) (task_id : string) (task : Task) :
  steps (appends_nonfinal task_id) (notify env task).
Proof. intros s. apply appends_nonfinal_same, notified_subscribers. Qed.

Lemma invoke_appends_nonfinal (env : Env) (task_id query : string) :
  steps (appends_nonfinal task_id) (invoke env query).
Proof. intros s. now apply appends_nonfinal_same. Qed.

Lemma enqueue_appends_nonfinal (task_id : string) (ev : Event) :
  event_final ev = false ->
  steps (appends_nonfinal task_id) (enqueue_events_for_sse task_id ev).
Proof.
  intros Hev s. exists [ev]. split; [apply appended_enqueue|].
  now repeat constructor.
Qed.

#[local] Hint Resolve update_store_appends_nonfinal notify_appends_nonfinal
  invoke_appends_nonfinal : steps.
#[local] Hint Extern 3 (steps (appends_nonfinal _) (enqueue_events_for_sse _ _)) =>
  solve [apply enqueue_appends_nonfinal; reflexivity] : steps.

Lemma closes_bind {A B : Type} (task_id : string) (m : M A) (k : A -> M B) :
  steps (appends_nonfinal task_id) m -> (forall a, closes task_id (k a)) ->
  closes task_id (bind m k).
Proof.
  intros Hm Hk s. destruct (Hm s) as (e1 & H1 & Hn1). unfold bind.
  destruct (m s) as [s1 [a|e]]; cbn in *.
  - destruct (Hk a s1) as (e2 & H2 & Hend). exists (e1 ++ e2).
    split; [eapply appended_app; eassumption|].
    destruct (outcome (k a s1)).
    + destruct Hend as [Hn2|(init & st & -> & Hstate & Hinit)].
      * left. apply Forall_app. now split.
      * right. exists (e1 ++ init), st. rewrite app_assoc.
        split; [reflexivity|]. split; [exact Hstate|]. apply Forall_app. now split.
    + apply Forall_app. now split.
  - exists e1. now split.
Qed.

Lemma closes_enqueue_final (task_id : string) (st : TaskStatus) :
  state st = COMPLETED \/ state st = ERROR ->
  closes task_id
    (enqueue_events_for_sse task_id (TaskStatusUpdateEvent task_id st true)).
Proof.
  intros Hstate s. eexists. split; [apply appended_enqueue|]. cbn.
  right. exists [], st. split; [reflexivity|]. split; [exact Hstate|constructor].
Qed.

Ltac closes_tac :=
  cbv zeta;
  repeat (apply closes_bind; [steps_tac|intros ?]);
  apply closes_enqueue_final; cbn; auto.

Lemma _run_streaming_try_closes (env : Env) (request : SendTaskRequest)
    (query : string) :
  closes (params_id (params request)) (_run_streaming_try env request query).
Proof. unfold _run_streaming_try. closes_tac. Qed.

Lemma _run_streaming_except_closes (env : Env) (request : SendTaskRequest)
    (e : exn) :
  closes (params_id (params request)) (_run_streaming_except env request e).
Proof. unfold _run_streaming_except. closes_tac. Qed.

(** Whatever the store, the message and the sender are, a streaming run
    appends events that are all not final or end with their only final
    event. *)
Lemma _run_streaming_content_creation_well_ended (env : Env)
    (request : SendTaskRequest) (s : State) :
  exists events,
    appended (params_id (params request)) events s
      (final_state (_run_streaming_content_creation env request s)) /\
    (nonfinal events \/ ends_with_terminal_event (params_id (params request)) events).
Proof.
  unfold _run_streaming_content_creation. cbv zeta.
  destruct (_get_user_query (params request)) as [query|e].
  - unfold bind, lift, try_except. cbn.
    destruct (_run_streaming_try_closes env request query s) as (e1 & H1 & Hend1).
    destruct (_run_streaming_try env request query s) as [s1 [[]|e]]; cbn in *.
    + now exists e1.
    + destruct (_run_streaming_except_closes env request e s1) as (e2 & H2 & Hend2).
      exists (e1 ++ e2). split; [eapply appended_app; eassumption|].
      assert (Hany : nonfinal e2
                     \/ ends_with_terminal_event (params_id (params request)) e2)
        by (destruct (outcome (_run_streaming_except env request e s1)); auto).
      destruct Hany as [Hn2|(init & st & -> & Hstate & Hinit)].
      * left. apply Forall_app. now split.
      * right. exists (e1 ++ init), st. rewrite app_assoc.
        split; [reflexivity|]. split; [exact Hstate|]. apply Forall_app. now split.
  - exists []. split; [now apply appended_nil|left; constructor].
Qed.



(** ** A failing agent, whatever the sender does *)

Lemma _run_streaming_try_grows (env : Env) (request : SendTaskRequest)
    (query : string) :
  steps grows (_run_streaming_try env request query).
Proof. unfold _run_streaming_try. steps_tac. Qed.

(** The handler of [on_send_task] after a raise of the agent: the store it
    leaves does not depend on what its notification does. *)
Lemma on_send_task_except_store (env : Env) (request : SendTaskRequest) (e : exn)
    (task : Task) (s : State) :
  tasks s !! params_id (params request) = Some task ->
  let r := on_send_task_except env request e s in
  tasks (final_state r) !! params_id (params request)
  = Some (updated task (Some (failed_status e)) None) /\
  agent_calls (final_state r) = agent_calls s /\
  (forall response,
     outcome r = Ok response ->
     response
     = mkResponse (request_id request) None
         (Some (InternalError ("Error invoking agent: " ++ exn_str e)%string))) /\
  (quiet env ->
   outcome r
   = Ok (mkResponse (request_id request) None
           (Some (InternalError ("Error invoking agent: " ++ exn_str e)%string)))).
Proof.
  intros Hfound r. subst r. unfold on_send_task_except.
  rewrite (bind_run _ _ _ _ _ (update_store_found _ _ _ _ _ Hfound)).
  match goal with
  | |- context [bind (notify env ?t) _ ?s1] =>
      destruct (notify_run env t s1) as [rn Hn];
      pose proof (notify_quiet env t s1) as Hq
  end.
  destruct rn as [[]|e'].
  - rewrite (bind_run _ _ _ _ _ Hn). cbn.
    rewrite notified_tasks, notified_agent_calls. cbn.
    rewrite lookup_insert_eq. repeat apply conj; try reflexivity.
    now intros response [= <-].
  - rewrite (bind_raise _ _ _ _ _ Hn). cbn.
    rewrite notified_tasks, notified_agent_calls. cbn.
    rewrite lookup_insert_eq. repeat apply conj; try reflexivity.
    + discriminate.
    + intros Hquiet. rewrite (Hq Hquiet) in Hn. discriminate.
Qed.

(** The handler of the streaming path: the store it leaves does not
    depend on what its notification does, and it appends the final ERROR
    event or, when the notification raises, nothing. *)
Lemma _run_streaming_except_store (env : Env) (request : SendTaskRequest) (e : exn)
    (task : Task) (s : State) :
  tasks s !! params_id (params request) = Some task ->
  let task_id := params_id (params request) in
  let r := _run_streaming_except env request e s in
  tasks (final_state r) !! task_id = Some (updated task (Some (error_status e)) None) /\
  (appended task_id [TaskStatusUpdateEvent task_id (error_status e) true] s
     (final_state r) /\ outcome r = Ok tt
   \/ appended task_id [] s (final_state r) /\ exists e', outcome r = Raise e') /\
  (quiet env ->
   appended task_id [TaskStatusUpdateEvent task_id (error_status e) true] s
     (final_state r)).
Proof.
  intros Hfound task_id r. subst task_id r. unfold _run_streaming_except. cbv zeta.
  rewrite (bind_run _ _ _ _ _ (update_store_found _ _ _ _ _ Hfound)).
  match goal with
  | |- context [bind (notify env ?t) _ ?s1] =>
      destruct (notify_run env t s1) as [rn Hn];
      pose proof (notify_quiet env t s1) as Hq;
      assert (Hsame : task_sse_subscribers (notified env t s1)
                      = task_sse_subscribers s)
        by (now rewrite notified_subscribers)
  end.
  destruct rn as [[]|e'].
  - rewrite (bind_run _ _ _ _ _ Hn). cbv beta.
    match goal with
    | |- context [enqueue_events_for_sse ?i ?ev ?s2] =>
        assert (Happended : appended i [ev] s
                              (final_state (enqueue_events_for_sse i ev s2)))
    end.
    { unfold appended. rewrite appended_enqueue. unfold queues_of.
      now rewrite Hsame. }
    split; [|split; [left; split; [exact Happended|reflexivity]
                    |intros _; exact Happended]].
    cbn. rewrite notified_tasks. cbn. now rewrite lookup_insert_eq.
  - rewrite (bind_raise _ _ _ _ _ Hn). cbn.
    split; [|split].
    + rewrite notified_tasks. cbn. now rewrite lookup_insert_eq.
    + right. split; [now apply appended_nil|eauto].
    + intros Hquiet. rewrite (Hq Hquiet) in Hn. discriminate.
Qed.



(** ** Terminal states under every operation *)

Lemma on_send_task_subscribe_tasks (env : Env) (request : SendTaskRequest)
    (s : State) :
  tasks (final_state (on_send_task_subscribe env request s)) = tasks s \/
  tasks (final_state (on_send_task_subscribe env request s))
  = <[params_id (params request) := upserted s (params_id (params request))]>
      (tasks s).
Proof.
  unfold on_send_task_subscribe, try_except.
  destruct (_validate_request request) as [refusal|]; [now left|].
  rewrite (bind_run _ _ _ _ _ (upsert_task_run _ _)).
  rewrite (bind_run _ _ _ _ _ (register_push_notification_run _ _ _)).
  right. destruct (registration_passes env request); cbn;
    now rewrite registered_tasks.
Qed.

Lemma on_send_task_refused (env : Env) (request : SendTaskRequest) (s : State) :
  accepted env request = false -> final_state (on_send_task env request s) = s.
Proof.
  unfold accepted. intros Hrefused.
  destruct (_validate_request request) as [refusal|] eqn:Hvalid.
  - unfold on_send_task. now rewrite Hvalid.
  - now rewrite on_send_task_rejects_unverified.
Qed.

(** The [try]/[except] of [on_send_task] on a stored task, whatever the
    agent and the sender do: the task ends COMPLETED or FAILED. *)
Lemma on_send_task_try_except_state (env : Env) (request : SendTaskRequest)
    (query : string) (task : Task) (s : State) :
  tasks s !! params_id (params request) = Some task ->
  let r := try_except (on_send_task_try env request query)
                      (on_send_task_except env request) s in
  task_state (final_state r) (params_id (params request)) = Some COMPLETED \/
  task_state (final_state r) (params_id (params request)) = Some FAILED.
Proof.
  intros Hfound r. subst r.
  assert (Hinvoked : tasks (final_state (invoke env query s))
                       !! params_id (params request) = Some task) by exact Hfound.
  assert (Hfailed : forall e task1 s1,
            tasks s1 !! params_id (params request) = Some task1 ->
            task_state (final_state (on_send_task_except env request e s1))
                       (params_id (params request)) = Some FAILED).
  { intros e task1 s1 Hfound1.
    destruct (on_send_task_except_store env request e task1 s1 Hfound1)
      as (Htask & _).
    unfold task_state. now rewrite Htask. }
  unfold try_except, on_send_task_try, bind.
  destruct (invoke env query s) as [s1 [[content_data image_data]|e]] eqn:Hinvoke;
    cbn [fst snd final_state] in *.
  - destruct (make_summary env content_data image_data) as [summary|e] eqn:Hsummary.
    + pose proof (_process_agent_response_store env request content_data image_data
                    summary task s1 Hinvoked Hsummary) as Htask.
      destruct (_process_agent_response env request content_data image_data s1)
        as [s2 [response|e]]; cbn [fst final_state] in *.
      * left. unfold task_state. now rewrite Htask.
      * right. eapply Hfailed, Htask.
    + assert (Hraise : _process_agent_response env request content_data image_data s1
                       = (s1, Raise e)).
      { unfold _process_agent_response. cbv zeta. now rewrite Hsummary. }
      rewrite Hraise. right. eapply Hfailed, Hinvoked.
  - right. eapply Hfailed, Hinvoked.
Qed.



(** ** The summary of any content record *)

Lemma py_eqb_str_l (p : string) (w : json) :
  py_eqb (JStr p) w = true -> w = JStr p.
Proof. destruct w; cbn; try discriminate. now intros ->%String.eqb_eq. Qed.

Lemma py_eqb_str_r (v : json) (p : string) :
  py_eqb v (JStr p) = true -> v = JStr p.
Proof. destruct v; cbn; try discriminate. now intros ->%String.eqb_eq. Qed.

Lemma py_eqb_refl (v : json) : py_hashable v = true -> py_eqb v v = true.
Proof.
  destruct v; cbn; try discriminate; intros _.
  - reflexivity.
  - now destruct b.
  - apply Z.eqb_refl.
  - apply String.eqb_refl.
Qed.

(** Equal values are both true or both false. *)
Lemma py_eqb_truthy (v w : json) : py_eqb v w = true -> py_truthy v = py_truthy w.
Proof.
  destruct v as [|x|n|p|l|d], w as [|y|m|q|l'|d']; cbn; try discriminate.
  - reflexivity.
  - now destruct x, y.
  - intros ->%Z.eqb_eq. now destruct x.
  - intros ->%Z.eqb_eq. now destruct y.
  - now intros ->%Z.eqb_eq.
  - now intros ->%String.eqb_eq.
Qed.

Lemma py_dedup_subset (seen l : list json) (x : json) :
  In x (py_dedup seen l) -> In x l.
Proof.
  revert seen. induction l as [|a l IH]; intros seen; cbn; [easy|].
  destruct (existsb (py_eqb a) seen).
  - intros Hin. right. eapply IH, Hin.
  - intros [->|Hin]; [now left|]. right. eapply IH, Hin.
Qed.

Lemma py_dedup_fresh (seen l : list json) (x : json) :
  In x (py_dedup seen l) -> existsb (py_eqb x) seen = false.
Proof.
  revert seen. induction l as [|a l IH]; intros seen; cbn; [easy|].
  destruct (existsb (py_eqb a) seen) eqn:Hseen.
  - apply IH.
  - intros [<-|Hin]; [exact Hseen|].
    apply IH in Hin. cbn in Hin. now apply Bool.orb_false_iff in Hin.
Qed.

Lemma py_dedup_nodup (seen l : list json) :
  (forall v, In v l -> py_hashable v = true) -> List.NoDup (py_dedup seen l).
Proof.
  revert seen. induction l as [|a l IH]; intros seen Hhashable; cbn; [constructor|].
  assert (Hrest : forall v, In v l -> py_hashable v = true)
    by (intros v Hin; apply Hhashable; now right).
  destruct (existsb (py_eqb a) seen); [now apply IH|].
  constructor; [|now apply IH].
  intros Hin. apply py_dedup_fresh in Hin. cbn in Hin.
  rewrite py_eqb_refl in Hin by (apply Hhashable; now left). discriminate.
Qed.

(** Every element of the list is in the set, itself or by an equal
    element. *)
Lemma py_dedup_represents (seen l : list json) (v : json) :
  In v l ->
  (exists w, In w seen /\ py_eqb v w = true) \/
  (exists w, In w (py_dedup seen l) /\ (w = v \/ py_eqb v w = true)).
Proof.
  revert seen. induction l as [|a l IH]; intros seen; cbn; [easy|].
  destruct (existsb (py_eqb a) seen) eqn:Hseen.
  - intros [<-|Hin]; [|now apply IH].
    left. apply List.existsb_exists in Hseen. exact Hseen.
  - intros [<-|Hin].
    + right. exists a. split; [now left|now left].
    + destruct (IH (a :: seen) Hin) as [(w & [<-|Hw] & Heq)|(w & Hw & Heq)].
      * right. exists a. split; [now left|now right].
      * left. now exists w.
      * right. exists w. split; [now right|exact Heq].
Qed.

Lemma py_set_ok (l d : list json) :
  py_set l = Ok d ->
  d = py_dedup [] l /\ forall v, In v l -> py_hashable v = true.
Proof.
  unfold py_set.
  destruct (List.find (fun v => negb (py_hashable v)) l) as [v|] eqn:Hfind;
    [discriminate|].
  intros [= <-]. split; [reflexivity|]. intros v Hin.
  apply (List.find_none _ _ Hfind) in Hin. now apply Bool.negb_false_iff in Hin.
Qed.

Lemma py_set_hashable (l : list json) :
  (forall v, In v l -> py_hashable v = true) -> py_set l = Ok (py_dedup [] l).
Proof.
  intros Hhashable. unfold py_set.
  destruct (List.find (fun v => negb (py_hashable v)) l) as [v|] eqn:Hfind;
    [|reflexivity].
  apply List.find_some in Hfind as [Hin Hnot].
  rewrite (Hhashable v Hin) in Hnot. discriminate.
Qed.

Lemma py_join_from_ok (i : nat) (l : list json) (ss : list string) :
  py_join_from i l = Ok ss -> l = List.map JStr ss.
Proof.
  revert i ss. induction l as [|v l IH]; intros i ss; cbn.
  - now intros [= <-].
  - destruct v; try discriminate.
    destruct (py_join_from (S i) l) as [r|] eqn:Hrest; cbn; [|discriminate].
    intros [= <-]. cbn. now rewrite (IH _ _ Hrest).
Qed.

Lemma all_strings (l : list json) :
  (forall v, In v l -> exists p, v = JStr p) -> exists ps, l = List.map JStr ps.
Proof.
  induction l as [|v l IH]; intros Hall; [now exists []|].
  destruct (Hall v (or_introl eq_refl)) as [p ->].
  destruct IH as [ps ->]; [intros w Hin; apply Hall; now right|].
  now exists (p :: ps).
Qed.

Lemma make_summary_ok (env : Env) (content_data : json)
    (image_data : option Imagedata) (summary : string) :
  set_iter_ok env ->
  make_summary env content_data image_data = Ok summary ->
  exists vx vf vi vl ps,
    platform_of content_data "x_content" = Ok vx /\
    platform_of content_data "facebook_content" = Ok vf /\
    platform_of content_data "instagram_content" = Ok vi /\
    platform_of content_data "linkedin_content" = Ok vl /\
    (forall v, In v [vx; vf; vi; vl] -> usable_platform v) /\
    List.NoDup ps /\
    (forall p, In p ps <-> p <> "" /\ In (JStr p) [vx; vf; vi; vl]) /\
    summary
    = ("Created content package with posts for " ++ String.concat ", " ps ++ "."
       ++ image_clause image_data)%string.
Proof.
  intros Hiter Hsummary. unfold make_summary, platforms in Hsummary.
  destruct (platform_of content_data "x_content") as [vx|]; [|discriminate].
  destruct (platform_of content_data "facebook_content") as [vf|]; [|discriminate].
  destruct (platform_of content_data "instagram_content") as [vi|]; [|discriminate].
  destruct (platform_of content_data "linkedin_content") as [vl|]; [|discriminate].
  cbn [result_bind] in Hsummary.
  destruct (py_set [vx; vf; vi; vl]) as [d|] eqn:Hset; [|discriminate].
  cbn [result_bind] in Hsummary.
  destruct (py_join ", " (List.filter py_truthy (set_iter env d))) as [joined|]
    eqn:Hjoin; [|discriminate].
  cbn [result_bind] in Hsummary. injection Hsummary as <-.
  apply py_set_ok in Hset as [-> Hhashable].
  unfold py_join in Hjoin.
  destruct (py_join_from 0 _) as [ps|] eqn:Hfrom; [|discriminate].
  cbn in Hjoin. injection Hjoin as <-.
  apply py_join_from_ok in Hfrom.
  pose proof (Hiter (py_dedup [] [vx; vf; vi; vl])) as Hperm.
  assert (Hin : forall w,
            In w (List.map JStr ps) <->
            py_truthy w = true /\ In w (py_dedup [] [vx; vf; vi; vl])).
  { intros w. rewrite <- Hfrom, List.filter_In. split.
    - intros [Hw Ht]. split; [exact Ht|]. eapply Permutation_in; eassumption.
    - intros [Ht Hw]. split; [|exact Ht].
      eapply Permutation_in; [symmetry; exact Hperm|exact Hw]. }
  exists vx, vf, vi, vl, ps. repeat apply conj; try reflexivity.
  - intros v Hv. split; [now apply Hhashable|]. intros Htruthy.
    destruct (py_dedup_represents [] _ v Hv) as [(w & [] & _)|(w & Hw & Heq)].
    assert (Hstr : In w (List.map JStr ps)).
    { apply Hin. split; [|exact Hw].
      destruct Heq as [->|Heq]; [exact Htruthy|].
      now rewrite <- (py_eqb_truthy _ _ Heq). }
    apply List.in_map_iff in Hstr as (p & <- & _).
    destruct Heq as [<-|Heq]; [now exists p|].
    exists p. now apply py_eqb_str_r.
  - apply (List.NoDup_map_inv JStr). rewrite <- Hfrom.
    apply List.NoDup_filter. eapply Permutation_NoDup; [symmetry; exact Hperm|].
    now apply py_dedup_nodup.
  - intros p. split.
    + intros Hp. assert (Hw : In (JStr p) (List.map JStr ps)) by now apply List.in_map.
      apply Hin in Hw as [Ht Hw]. split.
      * cbn in Ht. apply Bool.negb_true_iff in Ht. now apply String.eqb_neq.
      * eapply py_dedup_subset, Hw.
    + intros [Hne Hp].
      assert (Hw : In (JStr p) (List.map JStr ps)).
      { apply Hin. split.
        - cbn. apply Bool.negb_true_iff. now apply String.eqb_neq.
        - destruct (py_dedup_represents [] _ (JStr p) Hp)
            as [(w & [] & _)|(w & Hw & [->|Heq])]; [exact Hw|].
          apply py_eqb_str_l in Heq. now subst w. }
      apply List.in_map_iff in Hw as (q & [= ->] & Hq). exact Hq.
Qed.

Lemma make_summary_usable (env : Env) (content_data : json)
    (image_data : option Imagedata) (vx vf vi vl : json) :
  set_iter_ok env ->
  platform_of content_data "x_content" = Ok vx ->
  platform_of content_data "facebook_content" = Ok vf ->
  platform_of content_data "instagram_content" = Ok vi ->
  platform_of content_data "linkedin_content" = Ok vl ->
  (forall v, In v [vx; vf; vi; vl] -> usable_platform v) ->
  exists summary, make_summary env content_data image_data = Ok summary.
Proof.
  intros Hiter Hx Hf Hi Hl Husable. unfold make_summary, platforms.
  rewrite Hx, Hf, Hi, Hl. cbn [result_bind].
  rewrite py_set_hashable by (intros v Hv; apply (Husable v Hv)).
  cbn [result_bind].
  destruct (all_strings
              (List.filter py_truthy (set_iter env (py_dedup [] [vx; vf; vi; vl]))))
    as [ps Hps].
  { intros v Hv. apply List.filter_In in Hv as [Hv Ht].
    apply (Permutation_in _ (Hiter _)), py_dedup_subset in Hv.
    now apply (Husable v Hv). }
  rewrite Hps, py_join_strings. cbn [result_bind]. eauto.
Qed.



